(** * Say Cheese!  A shallow embedding of [say-cheese.js]

    The library attaches a webcam stream to a page element, lets the user
    drag a viewfinder rectangle over the video and crops snapshots out of the
    current frame.  This development embeds the JavaScript of
    [src/say-cheese.js] function by function and states the properties of the
    viewfinder and of the snapshot extraction over that embedding.

    Conventions of the embedding:
    - JavaScript numbers are pointer coordinates and element sizes; they are
      modelled by [Z], next to [undefined] and [NaN], which the code produces
      when a property is missing;
    - objects that the code shares and mutates (the viewfinder rectangles) live
      in an explicit store addressed by locations, so that aliasing is visible;
    - a function of the source is a computation in a state and exception
      monad; a closure of the source is its code applied to its environment;
    - what the browser provides ([drawImage], the DOM, jQuery's event
      registry) is a parameter, a small model, or a trace of the calls made. *)

From Stdlib Require Import ZArith String List.
From stdpp Require Import base option list gmap strings.

Local Open Scope string_scope.
Local Open Scope list_scope.
Local Open Scope Z_scope.

(** ** JavaScript values *)

(** The values that flow through the viewfinder code. *)
Inductive val : Type :=
  | VUndef
  | VNum (n : Z)
  | VNaN.

#[global] Instance val_eq_dec : EqDecision val.
Proof. solve_decision. Defined.

(** ToBoolean: [undefined], [NaN] and [0] are falsy. *)
Definition truthy (v : val) : bool :=
  match v with
  | VNum n => negb (n =? 0)
  | VUndef | VNaN => false
  end.

(** [a || b] evaluates to [a] when it is truthy and to [b] otherwise. *)
Definition js_or (a b : val) : val := if truthy a then a else b.

(** [a - b]: ToNumber of [undefined] is [NaN], and [NaN] is absorbing. *)
Definition js_sub (a b : val) : val :=
  match a, b with
  | VNum m, VNum n => VNum (m - n)
  | _, _ => VNaN
  end.

Definition Math_abs (a : val) : val :=
  match a with
  | VNum n => VNum (Z.abs n)
  | VUndef | VNaN => VNaN
  end.

Definition Math_min (a b : val) : val :=
  match a, b with
  | VNum m, VNum n => VNum (Z.min m n)
  | _, _ => VNaN
  end.

Declare Scope val_scope.
Delimit Scope val_scope with js.
Bind Scope val_scope with val.
Infix "||" := js_or : val_scope.
Infix "-" := js_sub : val_scope.
Arguments js_sub : simpl never.
Arguments js_or : simpl never.

(** Exceptions thrown by the code or by the platform. *)
Inductive exn : Type :=
  | Error (msg : string)
  | TypeError (msg : string)
  | ReferenceError (ident : string)
  | DOMException (name : string).

(** ** Pointer events and [eventCoords] *)

(** The properties of a mouse or touch event that the code reads. *)
Record Event : Type := mkEvent {
  offsetX : val;
  layerX : val;
  offsetY : val;
  layerY : val
}.

Record Coords : Type := mkCoords { x : val; y : val }.

(** function eventCoords(evt) {
      return { x: evt.offsetX || evt.layerX, y: evt.offsetY || evt.layerY };
    } *)
Definition eventCoords (evt : Event) : Coords :=
  {| x := (offsetX evt || layerX evt)%js;
     y := (offsetY evt || layerY evt)%js |}.

(** A pointer event at the surface-local point [(px, py)]: the browser fills
    both the [offset] and the [layer] coordinates, which agree on the
    absolutely positioned canvas. *)
Definition pointer_at (px py : Z) : Event :=
  {| offsetX := VNum px; layerX := VNum px;
     offsetY := VNum py; layerY := VNum py |}.

(** ** The viewfinder rectangle *)

Record rect : Type := mkRect {
  startX : val;
  startY : val;
  endX : val;
  endY : val;
  width : val;
  height : val
}.

#[global] Instance rect_eq_dec : EqDecision rect.
Proof. solve_decision. Defined.

(** The object literal [{}]: every property reads as [undefined]. *)
Definition empty_rect : rect := mkRect VUndef VUndef VUndef VUndef VUndef VUndef.

Definition set_startX (v : val) (r : rect) : rect :=
  mkRect v (startY r) (endX r) (endY r) (width r) (height r).
Definition set_startY (v : val) (r : rect) : rect :=
  mkRect (startX r) v (endX r) (endY r) (width r) (height r).
Definition set_endX (v : val) (r : rect) : rect :=
  mkRect (startX r) (startY r) v (endY r) (width r) (height r).
Definition set_endY (v : val) (r : rect) : rect :=
  mkRect (startX r) (startY r) (endX r) v (width r) (height r).
Definition set_width (v : val) (r : rect) : rect :=
  mkRect (startX r) (startY r) (endX r) (endY r) v (height r).
Definition set_height (v : val) (r : rect) : rect :=
  mkRect (startX r) (startY r) (endX r) (endY r) (width r) v.

(** Locations of rectangle objects in the store. *)
Abbreviation loc := nat (only parsing).

(** ** The page, the video and the canvases *)

(** Identity of a DOM node. *)
Abbreviation node := nat (only parsing).

(** A bitmap is a list of rows of colours. *)
Abbreviation colour := Z (only parsing).
Abbreviation Bitmap := (list (list Z)) (only parsing).

(** What the tree of the page records for a node. *)
Record DomNode : Type := mkDomNode {
  style_position : string;
  children : list node
}.

(** The [video] element: its layout box and the frame it currently shows. *)
Record Video : Type := mkVideo {
  video_node : node;
  offsetWidth : Z;
  offsetHeight : Z;
  offsetTop : Z;
  offsetLeft : Z;
  autoplay : bool;
  src : string;
  frame : Bitmap
}.

(** The calls made on the 2d context of the on-screen canvas. *)
Inductive paint : Type :=
  | clearRect (px py w h : val)
  | fillRect (px py w h : val)
  | strokeRect (px py w h : val).

Record Context2D : Type := mkContext2D {
  globalCompositeOperation : string;
  fillStyle : string;
  strokeStyle : string;
  lineWidth : Z;
  painted : list paint
}.

(** The on-screen canvas laid over the video. *)
Record Canvas : Type := mkCanvas {
  canvas_node : node;
  canvas_width : val;
  canvas_height : val;
  canvas_position : string;
  canvas_top : val;
  canvas_left : val;
  canvas_cursor : string;
  listeners : list (string * string)
}.

(** A snapshot is an off-screen canvas: its size and what was drawn on it. *)
Record Snapshot : Type := mkSnapshot {
  snapshot_width : val;
  snapshot_height : val;
  snapshot_image : Bitmap
}.

Record Options : Type := mkOptions { dynamicViewfinder : bool }.

(** The instance, [this].  [viewfinder] is a reference to a rectangle object. *)
Record instance : Type := mkInstance {
  viewfinder : loc;
  snapshots : list Snapshot;
  canvas : option Canvas;
  context : option Context2D;
  video : option Video;
  options : Options;
  element : node
}.

(** The calls of [trigger], which hands the event to jQuery's handlers. *)
Inductive payload : Type :=
  | NoData
  | SnapshotData (snapshot : Snapshot)
  | ArgumentsData (arguments : list string).

Record notification : Type := mkNotification {
  event_name : string;
  event_data : payload
}.

(** The whole state: the instance, the store of rectangle objects, the tree of
    the page and the trace of notifications. *)
Record state : Type := mkState {
  this : instance;
  heap : gmap loc rect;
  page : gmap node DomNode;
  emitted : list notification
}.

Definition set_viewfinder (l : loc) (i : instance) : instance :=
  mkInstance l (snapshots i) (canvas i) (context i) (video i) (options i) (element i).
Definition set_snapshots (l : list Snapshot) (i : instance) : instance :=
  mkInstance (viewfinder i) l (canvas i) (context i) (video i) (options i) (element i).
Definition set_canvas (c : option Canvas) (i : instance) : instance :=
  mkInstance (viewfinder i) (snapshots i) c (context i) (video i) (options i) (element i).
Definition set_context (c : option Context2D) (i : instance) : instance :=
  mkInstance (viewfinder i) (snapshots i) (canvas i) c (video i) (options i) (element i).
Definition set_video (v : option Video) (i : instance) : instance :=
  mkInstance (viewfinder i) (snapshots i) (canvas i) (context i) v (options i) (element i).
Definition set_options (o : Options) (i : instance) : instance :=
  mkInstance (viewfinder i) (snapshots i) (canvas i) (context i) (video i) o (element i).

Definition with_this (f : instance -> instance) (s : state) : state :=
  mkState (f (this s)) (heap s) (page s) (emitted s).
Definition with_heap (f : gmap loc rect -> gmap loc rect) (s : state) : state :=
  mkState (this s) (f (heap s)) (page s) (emitted s).
Definition with_page (f : gmap node DomNode -> gmap node DomNode) (s : state) : state :=
  mkState (this s) (heap s) (f (page s)) (emitted s).
Definition with_emitted (f : list notification -> list notification) (s : state) : state :=
  mkState (this s) (heap s) (page s) (f (emitted s)).

(** ** The monad of the embedding *)

(** A computation ends normally with a value or abruptly with an exception;
    either way the mutations it made remain. *)
Inductive completion (A : Type) : Type :=
  | Normal (a : A)
  | Throw (e : exn).
Arguments Normal {A} a.
Arguments Throw {A} e.

Definition M (A : Type) : Type := state -> completion A * state.

Definition ret {A} (a : A) : M A := fun s => (Normal a, s).
Definition throw {A} (e : exn) : M A := fun s => (Throw e, s).
Definition bind {A B} (m : M A) (k : A -> M B) : M B :=
  fun s => match m s with
           | (Normal a, s') => k a s'
           | (Throw e, s') => (Throw e, s')
           end.
Definition gets {A} (f : state -> A) : M A := fun s => (Normal (f s), s).
Definition modify (f : state -> state) : M unit := fun s => (Normal tt, f s).

Declare Scope stmt_scope.
Delimit Scope stmt_scope with stmt.
Notation "'let*' a ':=' m 'in' k" := (bind m (fun a => k))
  (at level 10, a name, m at level 100, k at level 200) : stmt_scope.
Notation "m ';;' k" := (bind m (fun _ => k))
  (at level 100, k at level 200, right associativity) : stmt_scope.

Local Open Scope stmt_scope.

(** ** Rectangle objects in the store *)

(** Reading through a reference.  An object that was never written reads like
    [{}]. *)
Definition deref (h : gmap loc rect) (l : loc) : rect := default empty_rect (h !! l).

Definition read (l : loc) : M rect := gets (fun s => deref (heap s) l).

(** [obj.prop = v], where [f] is the setter of [prop]. *)
Definition assign (l : loc) (f : rect -> rect) : M unit :=
  modify (with_heap (fun h => <[l := f (deref h l)]> h)).

(** An object literal: a new object at a location not yet in use. *)
Definition alloc (r : rect) : M loc :=
  fun s => let l := fresh (dom (heap s)) in (Normal l, with_heap <[l := r]> s).

(** The rectangle that [this.viewfinder] refers to. *)
Definition currentRectangle (s : state) : rect := deref (heap s) (viewfinder (this s)).

(** ** Access to the instance *)

Definition null_error (what : string) : exn :=
  TypeError (String.append "Cannot read property of null: " what).

Definition get_video : M Video :=
  fun s => match video (this s) with
           | Some v => (Normal v, s)
           | None => (Throw (null_error "this.video"), s)
           end.

Definition get_canvas : M Canvas :=
  fun s => match canvas (this s) with
           | Some c => (Normal c, s)
           | None => (Throw (null_error "this.canvas"), s)
           end.

Definition get_context : M Context2D :=
  fun s => match context (this s) with
           | Some c => (Normal c, s)
           | None => (Throw (null_error "this.context"), s)
           end.

(** [this.video.prop = v], [this.canvas.prop = v], [this.context.prop = v]. *)
Definition video_set (f : Video -> Video) : M unit :=
  let* v := get_video in modify (with_this (set_video (Some (f v)))).

Definition canvas_set (f : Canvas -> Canvas) : M unit :=
  let* c := get_canvas in modify (with_this (set_canvas (Some (f c)))).

Definition context_set (f : Context2D -> Context2D) : M unit :=
  let* c := get_context in modify (with_this (set_context (Some (f c)))).

Definition set_autoplay (b : bool) (v : Video) : Video :=
  mkVideo (video_node v) (offsetWidth v) (offsetHeight v) (offsetTop v) (offsetLeft v)
          b (src v) (frame v).
Definition set_src (u : string) (v : Video) : Video :=
  mkVideo (video_node v) (offsetWidth v) (offsetHeight v) (offsetTop v) (offsetLeft v)
          (autoplay v) u (frame v).

Definition set_canvas_width (w : val) (c : Canvas) : Canvas :=
  mkCanvas (canvas_node c) w (canvas_height c) (canvas_position c) (canvas_top c)
           (canvas_left c) (canvas_cursor c) (listeners c).
Definition set_canvas_height (h : val) (c : Canvas) : Canvas :=
  mkCanvas (canvas_node c) (canvas_width c) h (canvas_position c) (canvas_top c)
           (canvas_left c) (canvas_cursor c) (listeners c).
Definition set_canvas_position (p : string) (c : Canvas) : Canvas :=
  mkCanvas (canvas_node c) (canvas_width c) (canvas_height c) p (canvas_top c)
           (canvas_left c) (canvas_cursor c) (listeners c).
Definition set_canvas_top (t : val) (c : Canvas) : Canvas :=
  mkCanvas (canvas_node c) (canvas_width c) (canvas_height c) (canvas_position c) t
           (canvas_left c) (canvas_cursor c) (listeners c).
Definition set_canvas_left (l : val) (c : Canvas) : Canvas :=
  mkCanvas (canvas_node c) (canvas_width c) (canvas_height c) (canvas_position c)
           (canvas_top c) l (canvas_cursor c) (listeners c).
Definition set_canvas_cursor (k : string) (c : Canvas) : Canvas :=
  mkCanvas (canvas_node c) (canvas_width c) (canvas_height c) (canvas_position c)
           (canvas_top c) (canvas_left c) k (listeners c).
(** [canvas.addEventListener(type, handler, true)] *)
Definition addEventListener (type handler : string) (c : Canvas) : Canvas :=
  mkCanvas (canvas_node c) (canvas_width c) (canvas_height c) (canvas_position c)
           (canvas_top c) (canvas_left c) (canvas_cursor c)
           (listeners c ++ [(type, handler)]).

Definition set_globalCompositeOperation (o : string) (c : Context2D) : Context2D :=
  mkContext2D o (fillStyle c) (strokeStyle c) (lineWidth c) (painted c).
Definition set_fillStyle (f : string) (c : Context2D) : Context2D :=
  mkContext2D (globalCompositeOperation c) f (strokeStyle c) (lineWidth c) (painted c).
Definition set_strokeStyle (f : string) (c : Context2D) : Context2D :=
  mkContext2D (globalCompositeOperation c) (fillStyle c) f (lineWidth c) (painted c).
Definition set_lineWidth (w : Z) (c : Context2D) : Context2D :=
  mkContext2D (globalCompositeOperation c) (fillStyle c) (strokeStyle c) w (painted c).
Definition paints (p : paint) (c : Context2D) : Context2D :=
  mkContext2D (globalCompositeOperation c) (fillStyle c) (strokeStyle c) (lineWidth c)
              (painted c ++ [p]).

(** [this.context.method(args)]: the context is looked up first, then the
    arguments are evaluated, then the call is made. *)
Definition context_call (args : M paint) : M unit :=
  let* _ := get_context in
  let* p := args in
  context_set (paints p).

(** The arguments [(0, 0, this.canvas.width, this.canvas.height)]. *)
Definition whole_canvas (op : val -> val -> val -> val -> paint) : M paint :=
  let* c := get_canvas in
  ret (op (VNum 0) (VNum 0) (canvas_width c) (canvas_height c)).

(** ** Notifications *)

(** SayCheese.prototype.trigger = function trigger(evt, data) {
      return $(this).triggerHandler(evt, data);
    };
    The handlers are the host's; the embedding records the call. *)
Definition trigger (evt : string) (data : payload) : M unit :=
  modify (with_emitted (fun t => t ++ [mkNotification evt data])).

(** ** The page *)

Definition body : node := 0%nat.

(** [document.createElement(tag)]: a new node, not yet attached. *)
Definition createElement : M node :=
  fun s => let n := fresh ({[body]} ∪ dom (page s)) in
           (Normal n, with_page <[n := mkDomNode "" []]> s).

Definition node_of (p : gmap node DomNode) (n : node) : DomNode :=
  default (mkDomNode "" []) (p !! n).

(** [parent.appendChild(child)] *)
Definition appendChild (parent child : node) : M unit :=
  modify (with_page (fun p =>
    <[parent := mkDomNode (style_position (node_of p parent))
                          (children (node_of p parent) ++ [child])]> p)).

(** ** The constructor *)

(** Which of the vendor names [navigator] has. *)
Record Navigator : Type := mkNavigator {
  getUserMedia : bool;
  webkitGetUserMedia : bool;
  mozGetUserMedia : bool
}.

(** function userMediaFeatureExists() {
      return 'getUserMedia'       in navigator ||
             'webkitGetUserMedia' in navigator ||
             'mozGetUserMedia'    in navigator;
    }; *)
Definition userMediaFeatureExists (navigator : Navigator) : bool :=
  getUserMedia navigator || webkitGetUserMedia navigator || mozGetUserMedia navigator.

(** The document the page is loaded in. *)
Record Document : Type := mkDocument {
  querySelectorAll : string -> list node;
  tree : gmap node DomNode
}.

(** SayCheese.prototype.merge = function merge(target, object) {
      return $.extend(target, object);
    }
    on the only option there is; [None] is an absent property. *)
Definition merge (target : Options) (object : option bool) : Options :=
  match object with
  | Some b => mkOptions b
  | None => target
  end.

(** SayCheese.prototype.setOptions = function setOptions(options) {
      this.options = this.merge(this.options, options);
    } *)
Definition setOptions (opts : option bool) : M unit :=
  modify (with_this (fun i => set_options (merge (options i) opts) i)).

(** SayCheese = function SayCheese(element, options) {
      if (userMediaFeatureExists()) {
        this.viewfinder = {}, this.snapshots = [], this.canvas = null,
        this.context = null, this.video = null, this.events = {},
        this.options = { dynamicViewfinder: false };
        this.element = document.querySelectorAll(element)[0];
        this.element.style.position = 'relative';
        this.setOptions(options);
      } else {
        throw new Error("getUserMedia() is not supported in this browser");
      }
      return this;
    };
    The result is the state of the new instance, or the exception; [events]
    is never read and is left out of [instance]. *)
Definition SayCheese (navigator : Navigator) (document : Document)
    (selector : string) (opts : option bool) : completion state :=
  if userMediaFeatureExists navigator then
    match querySelectorAll document selector !! 0%nat with
    | Some el =>
        let s := mkState (mkInstance 0%nat [] None None None (mkOptions false) el)
                         {[ 0%nat := empty_rect ]}
                         (<[el := mkDomNode "relative"
                                    (children (node_of (tree document) el))]>
                            (tree document))
                         [] in
        match setOptions opts s with
        | (Normal _, s') => Normal s'
        | (Throw e, _) => Throw e
        end
    | None => Throw (null_error "this.element")
    end
  else
    Throw (Error "getUserMedia() is not supported in this browser").

(** ** The video and the on-screen canvas *)

(** SayCheese.prototype.createVideo = function createVideo() {
      this.video = document.createElement('video');
      this.video.autoplay = true;
    }; *)
Definition createVideo : M unit :=
  let* n := createElement in
  modify (with_this (set_video (Some (mkVideo n 0 0 0 0 false "" [])))) ;;
  video_set (set_autoplay true).

(** What the browser does to the video once the stream delivers: it lays the
    element out and shows a frame. *)
Definition video_loads (w h top left : Z) (f : Bitmap) : M unit :=
  video_set (fun v => mkVideo (video_node v) w h top left (autoplay v) (src v) f).

(** SayCheese.prototype.initDefaultViewfinder = function initDefaultViewfinder() {
      return this.viewfinder = {
        startX: 0, startY: 0,
        endX: this.video.offsetWidth, endY: this.video.offsetHeight,
        width: this.video.offsetWidth, height: this.video.offsetHeight
      };
    }; *)
Definition initDefaultViewfinder : M loc :=
  let* v := get_video in
  let* l := alloc (mkRect (VNum 0) (VNum 0)
                          (VNum (offsetWidth v)) (VNum (offsetHeight v))
                          (VNum (offsetWidth v)) (VNum (offsetHeight v))) in
  modify (with_this (set_viewfinder l)) ;;
  ret l.

(** The variables [isDragging] and [box] that [initDynamicViewfinder] declares
    and that its three handlers close over. *)
Record closure : Type := mkClosure {
  isDragging : bool;
  box : loc
}.

Module DynamicViewfinder.

(** [evt.preventDefault()] acts on the browser's default action only. *)
Definition preventDefault (evt : Event) : M unit := ret tt.

(** var start = function start(evt) {
      evt.preventDefault();
      var coords = eventCoords(evt);
      box.startX = coords.x;
      box.startY = coords.y;
      isDragging = true;
    }.bind(this); *)
Definition start (evt : Event) (c : closure) : M closure :=
  preventDefault evt ;;
  let coords := eventCoords evt in
  assign (box c) (set_startX (x coords)) ;;
  assign (box c) (set_startY (y coords)) ;;
  ret (mkClosure true (box c)).

(** var stop = function stop(evt) {
      evt.preventDefault();
      isDragging = false;
      var coords = eventCoords(evt);
      box.endX = coords.x,
      box.endY = coords.y;
      this.viewfinder = box;
      this.trigger('change');
    }.bind(this); *)
Definition stop (evt : Event) (c : closure) : M closure :=
  preventDefault evt ;;
  let c := mkClosure false (box c) in
  let coords := eventCoords evt in
  assign (box c) (set_endX (x coords)) ;;
  assign (box c) (set_endY (y coords)) ;;
  modify (with_this (set_viewfinder (box c))) ;;
  trigger "change" NoData ;;
  ret c.

(** var draw = function draw(evt) {
      evt.preventDefault();
      var coords = eventCoords(evt);
      if (isDragging) {
        box.width = coords.x - box.startX,
        box.height = coords.y - box.startY;
        this.context.globalCompositeOperation = 'xor';
        this.context.clearRect(0, 0, this.canvas.width, this.canvas.height);
        this.context.fillStyle = 'rgba(0, 0, 0, .8)';
        this.context.fillRect(0, 0, this.canvas.width, this.canvas.height);
        this.context.strokeStyle = 'rgba(255, 255, 255, .5)';
        this.context.lineWidth = 2;
        this.context.strokeRect(box.startX, box.startY, box.width, box.height);
        this.context.fillRect(box.startX, box.startY, box.width, box.height);
      }
    }.bind(this); *)
Definition box_args (c : closure) (op : val -> val -> val -> val -> paint) : M paint :=
  let* b := read (box c) in
  ret (op (startX b) (startY b) (width b) (height b)).

Definition draw (evt : Event) (c : closure) : M closure :=
  preventDefault evt ;;
  let coords := eventCoords evt in
  if isDragging c then
    (let* b := read (box c) in
     assign (box c) (set_width (x coords - startX b))) ;;
    (let* b := read (box c) in
     assign (box c) (set_height (y coords - startY b))) ;;
    context_set (set_globalCompositeOperation "xor") ;;
    context_call (whole_canvas clearRect) ;;
    context_set (set_fillStyle "rgba(0, 0, 0, .8)") ;;
    context_call (whole_canvas fillRect) ;;
    context_set (set_strokeStyle "rgba(255, 255, 255, .5)") ;;
    context_set (set_lineWidth 2) ;;
    context_call (box_args c strokeRect) ;;
    context_call (box_args c fillRect) ;;
    ret c
  else
    ret c.

End DynamicViewfinder.

(** SayCheese.prototype.initDynamicViewfinder = function initDynamicViewfinder() {
      var isDragging = false, box = {};
      var start = ..., stop = ..., draw = ...;
      this.canvas.addEventListener('mousedown', start, true);
      this.canvas.addEventListener('mouseup', stop, true);
      this.canvas.addEventListener('mousemove', draw, true);
      if ('ontouchstart' in window) {
        this.canvas.addEventListener('touchstart', start, true);
        this.canvas.addEventListener('touchend', stop, true);
        this.canvas.addEventListener('touchmove', draw, true);
      }
      this.canvas.style.cursor = 'crosshair';
    };
    [touch] is ['ontouchstart' in window].  The result is the environment of
    the handlers that were registered. *)
Definition initDynamicViewfinder (touch : bool) : M closure :=
  let* b := alloc empty_rect in
  canvas_set (addEventListener "mousedown" "start") ;;
  canvas_set (addEventListener "mouseup" "stop") ;;
  canvas_set (addEventListener "mousemove" "draw") ;;
  (if touch then
     canvas_set (addEventListener "touchstart" "start") ;;
     canvas_set (addEventListener "touchend" "stop") ;;
     canvas_set (addEventListener "touchmove" "draw")
   else ret tt) ;;
  canvas_set (set_canvas_cursor "crosshair") ;;
  ret (mkClosure false b).

(** SayCheese.prototype.setupCanvas = function setupCanvas() {
      this.canvas = document.createElement('canvas');
      this.canvas.width = this.video.offsetWidth;
      this.canvas.height = this.video.offsetHeight;
      this.canvas.style.position = 'absolute';
      this.canvas.style.top = this.video.offsetTop;
      this.canvas.style.left = this.video.offsetLeft;
      this.context = this.canvas.getContext('2d');
      this.element.appendChild(this.canvas);
      this.initDefaultViewfinder();
      if (this.options.dynamicViewfinder == true) {
        this.initDynamicViewfinder();
      }
      return this.trigger('start');
    }; *)
Definition setupCanvas (touch : bool) : M (option closure) :=
  let* n := createElement in
  modify (with_this (set_canvas
    (Some (mkCanvas n (VNum 300) (VNum 150) "" VUndef VUndef "" [])))) ;;
  (let* v := get_video in canvas_set (set_canvas_width (VNum (offsetWidth v)))) ;;
  (let* v := get_video in canvas_set (set_canvas_height (VNum (offsetHeight v)))) ;;
  canvas_set (set_canvas_position "absolute") ;;
  (let* v := get_video in canvas_set (set_canvas_top (VNum (offsetTop v)))) ;;
  (let* v := get_video in canvas_set (set_canvas_left (VNum (offsetLeft v)))) ;;
  modify (with_this (set_context (Some (mkContext2D "source-over" "#000000" "#000000" 1 [])))) ;;
  (let* el := gets (fun s => element (this s)) in
   let* c := get_canvas in
   appendChild el (canvas_node c)) ;;
  initDefaultViewfinder ;;
  let* dynamic := gets (fun s => dynamicViewfinder (options (this s))) in
  let* c := (if dynamic
             then (let* c := initDynamicViewfinder touch in ret (Some c))
             else ret None) in
  trigger "start" NoData ;;
  ret c.

(** SayCheese.prototype.resetViewfinder = function() {
      this.context.globalCompositeOperation = 'source-over';
      this.context.clearRect(0, 0, this.canvas.width, this.canvas.height);
      this.viewfinder = {
        startX: 0, startY: 0,
        endX: this.video.offsetWidth, endY: this.video.offsetHeight,
        width: this.video.offsetWidth, height: this.video.offsetHeight
      }
      this.trigger('change');
    }; *)
Definition resetViewfinder : M unit :=
  context_set (set_globalCompositeOperation "source-over") ;;
  context_call (whole_canvas clearRect) ;;
  (let* v := get_video in
   let* l := alloc (mkRect (VNum 0) (VNum 0)
                           (VNum (offsetWidth v)) (VNum (offsetHeight v))
                           (VNum (offsetWidth v)) (VNum (offsetHeight v))) in
   modify (with_this (set_viewfinder l))) ;;
  trigger "change" NoData.

(** ** Taking a snapshot *)

(** The one call the code makes on the 2d context of a snapshot canvas:
    [ctx.drawImage(image, sx, sy, sw, sh, dx, dy, dw, dh)] on a blank canvas
    of the given size.  It is the browser's; it yields the bitmap of the
    canvas after the call, or throws. *)
Class CanvasAPI : Type := {
  drawImage :
    forall (canvas_w canvas_h : val) (image : option Video)
           (sx sy sw sh dx dy dw dh : val), completion Bitmap
}.

(** [if (callback) { callback.call(this, snapshot); }] *)
Definition invoke (callback : option (Snapshot -> M unit)) (snapshot : Snapshot) : M unit :=
  match callback with
  | Some f => f snapshot
  | None => ret tt
  end.

(** SayCheese.prototype.takeSnapshot = function takeSnapshot(callback) {
      var snapshot = document.createElement('canvas'),
          ctx      = snapshot.getContext('2d');
      snapshot.width  = Math.abs(this.viewfinder.width),
      snapshot.height = Math.abs(this.viewfinder.height);
      ctx.drawImage(this.video,
                    Math.min(this.viewfinder.startX, this.viewfinder.endX),
                    Math.min(this.viewfinder.startY, this.viewfinder.endY),
                    snapshot.width, snapshot.height,
                    0, 0,
                    snapshot.width, snapshot.height);
      this.snapshots.push(snapshot);
      this.trigger('snapshot', snapshot);
      if (callback) {
        callback.call(this, snapshot);
      }
      ctx = null;
    };
    The snapshot canvas is never attached to the page; it is modelled by its
    size and its bitmap.  Its [width] and [height] read back what they were
    assigned, as a canvas does for the non-negative integers that [Math.abs]
    yields on numbers; the properties of sizes below are stated for those. *)
Definition takeSnapshot `{CanvasAPI} (callback : option (Snapshot -> M unit)) : M unit :=
  let* vf := gets currentRectangle in
  let snapshot_w := Math_abs (width vf) in
  let* vf := gets currentRectangle in
  let snapshot_h := Math_abs (height vf) in
  let* image := gets (fun s => video (this s)) in
  let* vf := gets currentRectangle in
  let* bitmap :=
    (fun s => (drawImage snapshot_w snapshot_h image
                         (Math_min (startX vf) (endX vf))
                         (Math_min (startY vf) (endY vf))
                         snapshot_w snapshot_h
                         (VNum 0) (VNum 0)
                         snapshot_w snapshot_h, s)) in
  let snapshot := mkSnapshot snapshot_w snapshot_h bitmap in
  modify (with_this (fun i => set_snapshots (snapshots i ++ [snapshot]) i)) ;;
  trigger "snapshot" (SnapshotData snapshot) ;;
  invoke callback snapshot.

(** ** Starting and stopping the stream *)

Module Start.

(** var success = function success(stream) {
      this.createVideo();
      this.video.addEventListener('loadedmetadata', this.setupCanvas.bind(this));
      this.video.src = this.getStreamUrl(stream);
      this.element.appendChild(this.video);
    }.bind(this);
    [url] is what [getStreamUrl(stream)] returns. *)
Definition success (url : string) : M unit :=
  createVideo ;;
  video_set (set_src url) ;;
  let* el := gets (fun s => element (this s)) in
  let* v := get_video in
  appendChild el (video_node v).

(** var error = function error() {
      this.trigger('error', arguments);
    }.bind(this); *)
Definition error (arguments : list string) : M unit :=
  trigger "error" (ArgumentsData arguments).

End Start.

(** What a global identifier of the page may be bound to. *)
Inductive gval : Type :=
  | GNode (n : node)
  | GOther.

(** The names bound by the function that wraps the library:
    [(function($) { var SayCheese; function userMediaFeatureExists ...;
    function eventCoords ...; ... })($)]. *)
Definition module_scope : list string :=
  ["$"; "SayCheese"; "userMediaFeatureExists"; "eventCoords"].

(** Resolution of a free identifier in a function of the library whose own
    scope binds [locals]: the function's scope, the library's scope, then the
    global object. *)
Definition resolve (locals : list string) (globals : gmap string gval)
    (ident : string) : M gval :=
  if bool_decide (ident ∈ locals ++ module_scope) then ret GOther
  else match globals !! ident with
       | Some v => ret v
       | None => throw (ReferenceError ident)
       end.

(** [parent.removeChild(child)] of the DOM. *)
Definition removeChild (parent : node) (child : gval) : M unit :=
  match child with
  | GNode n =>
      let* p := gets page in
      if bool_decide (n ∈ children (node_of p parent)) then
        modify (with_page
          <[parent := mkDomNode (style_position (node_of p parent))
                                (filter (fun m => m ≠ n) (children (node_of p parent)))]>)
      else throw (DOMException "NotFoundError")
  | GOther => throw (TypeError "parameter 1 is not of type 'Node'")
  end.

(** SayCheese.prototype.stop = function stop() {
      this.video = null;
      document.body.removeChild(video);
    };
    [globals] is the global object of the page at the call. *)
Definition stop (globals : gmap string gval) : M unit :=
  modify (with_this (set_video None)) ;;
  let* v := resolve ["stop"; "arguments"] globals "video" in
  removeChild body v.

(** ** Pointer input *)

(** The pointer events the canvas listens to, with mouse and touch alike:
    [mousedown]/[touchstart], [mousemove]/[touchmove], [mouseup]/[touchend]. *)
Inductive pointer : Type :=
  | Down (evt : Event)
  | Move (evt : Event)
  | Up (evt : Event).

(** Dispatch of one event to the handler registered for it. *)
Definition dispatch (p : pointer) (c : closure) : M closure :=
  match p with
  | Down evt => DynamicViewfinder.start evt c
  | Move evt => DynamicViewfinder.draw evt c
  | Up evt => DynamicViewfinder.stop evt c
  end.

(** Dispatch of a sequence of events, in order. *)
Fixpoint dispatch_all (ps : list pointer) (c : closure) : M closure :=
  match ps with
  | [] => ret c
  | p :: ps' => let* c' := dispatch p c in dispatch_all ps' c'
  end.

(** The operations of the region tracker, on points of the surface:
    [beginDrag], [updateDrag] and [endDrag] are what the handlers do with the
    coordinates of the event. *)
Definition beginDrag (px py : Z) : closure -> M closure :=
  DynamicViewfinder.start (pointer_at px py).
Definition updateDrag (px py : Z) : closure -> M closure :=
  DynamicViewfinder.draw (pointer_at px py).
Definition endDrag (px py : Z) : closure -> M closure :=
  DynamicViewfinder.stop (pointer_at px py).

(** The state a computation leaves, and its completion. *)
Definition exec {A} (m : M A) (s : state) : state := snd (m s).
Definition outcome {A} (m : M A) (s : state) : completion A := fst (m s).

(** ** A reference canvas *)

(** A [drawImage] that clips the source rectangle to the frame, as current
    browsers do: pixels of the destination whose source lies outside the frame
    stay transparent, and a call with a non-numeric argument or an empty
    source rectangle paints nothing.  It serves the closed examples below;
    the theorems about [takeSnapshot] hold for every [CanvasAPI]. *)
Definition transparent : colour := 0.

Definition pixel_at (f : Bitmap) (i j : Z) : colour :=
  if bool_decide (0 <= i /\ 0 <= j)
  then default transparent (f !! Z.to_nat j ≫= fun row => row !! Z.to_nat i)
  else transparent.

Definition clipped_copy (f : Bitmap) (cw ch sx sy sw sh dx dy dw dh : Z) : Bitmap :=
  (fun j =>
     (fun i =>
        if bool_decide (dx <= i < dx + dw /\ dy <= j < dy + dh /\ 0 < sw /\ 0 < sh)
        then pixel_at f (sx + (i - dx) * sw / dw) (sy + (j - dy) * sh / dh)
        else transparent) <$> seqZ 0 cw) <$> seqZ 0 ch.

Definition blank (cw ch : val) : Bitmap :=
  match cw, ch with
  | VNum w, VNum h => (fun _ => (fun _ => transparent) <$> seqZ 0 w) <$> seqZ 0 h
  | _, _ => []
  end.

Definition clipping_canvas : CanvasAPI :=
  {| drawImage cw ch image sx sy sw sh dx dy dw dh :=
       match image with
       | None => Throw (TypeError "parameter 1 is not of type 'CanvasImageSource'")
       | Some v =>
           match cw, ch, sx, sy, sw, sh, dx, dy, dw, dh with
           | VNum cw', VNum ch', VNum sx', VNum sy', VNum sw', VNum sh',
             VNum dx', VNum dy', VNum dw', VNum dh' =>
               Normal (clipped_copy (frame v) cw' ch' sx' sy' sw' sh' dx' dy' dw' dh')
           | _, _, _, _, _, _, _, _, _, _ => Normal (blank cw ch)
           end
       end |}.

(** ** A page to run the library on *)

(** A page whose body holds one container, found by the selector ["#cam"]. *)
Definition container : node := 1%nat.

Definition demo_document : Document :=
  {| querySelectorAll sel := if String.eqb sel "#cam" then [container] else [];
     tree := {[ body := mkDomNode "" [container]; container := mkDomNode "" [] ]} |}.

Definition demo_navigator : Navigator := mkNavigator false true false.

(** A frame of [w] by [h] pixels where the pixel at [(i, j)] has colour
    [1 + i + w * j]. *)
Definition test_frame (w h : Z) : Bitmap :=
  (fun j => (fun i => 1 + i + w * j) <$> seqZ 0 w) <$> seqZ 0 h.

(** The instance after construction with the dynamic viewfinder enabled, the
    stream started, the video laid out at [w] by [h] and the canvas set up;
    with it the environment of the registered handlers. *)
Definition ready (w h : Z) : option (closure * state) :=
  match SayCheese demo_navigator demo_document "#cam" (Some true) with
  | Normal s0 =>
      let s1 := exec (Start.success "blob:stream") s0 in
      let s2 := exec (video_loads w h 0 0 (test_frame w h)) s1 in
      match setupCanvas false s2 with
      | (Normal (Some c), s3) => Some (c, s3)
      | _ => None
      end
  | Throw _ => None
  end.

(** What [ready w h] evaluates to, written out: the handlers' environment and
    the state of the instance (see [ready_is_tracker]). *)
Definition tracker_closure : closure := mkClosure false 2%nat.

Definition tracker_state (w h : Z) : state :=
  mkState
    (mkInstance 1%nat []
       (Some (mkCanvas 3%nat (VNum w) (VNum h) "absolute" (VNum 0) (VNum 0) "crosshair"
                [("mousedown", "start"); ("mouseup", "stop"); ("mousemove", "draw")]))
       (Some (mkContext2D "source-over" "#000000" "#000000" 1 []))
       (Some (mkVideo 2%nat w h 0 0 true "blob:stream" (test_frame w h)))
       (mkOptions true)
       container)
    {[ 0%nat := empty_rect;
       1%nat := mkRect (VNum 0) (VNum 0) (VNum w) (VNum h) (VNum w) (VNum h);
       2%nat := empty_rect ]}
    {[ body := mkDomNode "" [container];
       container := mkDomNode "relative" [2%nat; 3%nat];
       2%nat := mkDomNode "" [];
       3%nat := mkDomNode "" [] ]}
    [mkNotification "start" NoData].

(** A drag gesture on points of the surface: [beginDrag p0], then [updateDrag]
    at each of [ps] in order, then [endDrag pn]. *)
Fixpoint updates (ps : list (Z * Z)) (c : closure) : M closure :=
  match ps with
  | [] => ret c
  | p :: ps' => let* c' := updateDrag p.1 p.2 c in updates ps' c'
  end.

Definition drag (p0 : Z * Z) (ps : list (Z * Z)) (pn : Z * Z) (c : closure) : M closure :=
  let* c1 := beginDrag p0.1 p0.2 c in
  let* c2 := updates ps c1 in
  endDrag pn.1 pn.2 c2.

(** The extents after the moves [ps] of a drag anchored at the start point of
    [b]: those of the last move, or the ones [b] had when there was none. *)
Definition moved (ps : list (Z * Z)) (b : rect) : rect :=
  match last ps with
  | Some q => set_height (VNum q.2 - startY b) (set_width (VNum q.1 - startX b) b)
  | None => b
  end.

(** The rectangle a drag leaves in the session box. *)
Definition dragged (p0 : Z * Z) (ps : list (Z * Z)) (pn : Z * Z) (b : rect) : rect :=
  set_endY (VNum pn.2) (set_endX (VNum pn.1)
    (moved ps (set_startY (VNum p0.2) (set_startX (VNum p0.1) b)))).

(** The rectangle of the drag in the opposite direction: corners exchanged,
    extents negated. *)
Definition opposite (r : rect) : rect :=
  mkRect (endX r) (endY r) (startX r) (startY r)
         (VNum 0 - width r) (VNum 0 - height r).

(** The canvas and its context exist, as they do once [setupCanvas] ran. *)
Definition surface (s : state) : Prop :=
  is_Some (context (this s)) /\ is_Some (canvas (this s)).

(** The snapshot a call of [takeSnapshot] appends, if the call completes. *)
Definition taken `{CanvasAPI} (s : state) : option Snapshot :=
  match takeSnapshot None s with
  | (Normal _, s') => last (snapshots (this s'))
  | (Throw _, _) => None
  end.

(** The state in which [takeSnapshot] leaves the instance before it invokes
    the callback: [snapshot] pushed and announced. *)
Definition pushed (snapshot : Snapshot) (s : state) : state :=
  with_emitted (fun t => t ++ [mkNotification "snapshot" (SnapshotData snapshot)])
    (with_this (fun i => set_snapshots (snapshots i ++ [snapshot]) i) s).

(** ** The URL of the stream *)

(** What the code reads of [window]: the objects [URL] and [webkitURL], when
    the browser has them, and their method [createObjectURL], when they have
    one.  A stream is identified by a string, and so is an object URL. *)
Record URLApi : Type := mkURLApi {
  createObjectURL : option (string -> string)
}.

Record Window : Type := mkWindow {
  URL : option URLApi;
  webkitURL : option URLApi
}.

(** [ident = v] for an identifier that no [var] declares: the assignment goes
    to the scope that binds [ident], and to the global object when none
    does. *)
Definition assign_free (locals : list string) (globals : gmap string gval)
    (ident : string) (v : gval) : gmap string gval :=
  if bool_decide (ident ∈ locals ++ module_scope) then globals
  else <[ident := v]> globals.

(** SayCheese.prototype.getStreamUrl = function getStreamUrl(stream) {
      url = (function() {
        return (window.URL || window.webkitURL);
      })();
      return (url && url.createObjectURL) ? url.createObjectURL(stream) : stream;
    };
    The result is the value returned and the global object after the call. *)
Definition getStreamUrl (window : Window) (stream : string)
    (globals : gmap string gval) : string * gmap string gval :=
  let url := match URL window with
             | Some u => Some u
             | None => webkitURL window
             end in
  let globals' := assign_free ["getStreamUrl"; "stream"; "arguments"] globals "url" GOther in
  (match url with
   | Some u => match createObjectURL u with
               | Some create => create stream
               | None => stream
               end
   | None => stream
   end,
   globals').

(** ** Sessions *)

(** What happens to an instance once it is set up: pointer events reach the
    handlers, and the host calls [resetViewfinder], [takeSnapshot] (here
    without a callback) and [stop]. *)
Inductive action : Type :=
  | Pointer (p : pointer)
  | ResetViewfinder
  | TakeSnapshot
  | Stop (globals : gmap string gval).

Definition perform `{CanvasAPI} (a : action) (c : closure) : M closure :=
  match a with
  | Pointer p => dispatch p c
  | ResetViewfinder => resetViewfinder ;; ret c
  | TakeSnapshot => takeSnapshot None ;; ret c
  | Stop globals => stop globals ;; ret c
  end.

(** An exception ends the handler or the call that raised it; the page goes
    on with the state as the exception left it. *)
Definition after `{CanvasAPI} (a : action) (cs : closure * state) : closure * state :=
  match perform a cs.1 cs.2 with
  | (Normal c', s') => (c', s')
  | (Throw _, s') => (cs.1, s')
  end.

Definition session `{CanvasAPI} (acts : list action) (cs : closure * state) : closure * state :=
  fold_left (fun cs a => after a cs) acts cs.

(** ** Vocabulary of the properties *)

(** The rectangle of the whole video, as [initDefaultViewfinder] and
    [resetViewfinder] write it. *)
Definition full_frame (v : Video) : rect :=
  mkRect (VNum 0) (VNum 0) (VNum (offsetWidth v)) (VNum (offsetHeight v))
         (VNum (offsetWidth v)) (VNum (offsetHeight v)).

(** The number of releases among pointer events, and the value of
    [isDragging] after them. *)
Fixpoint releases (ps : list pointer) : nat :=
  match ps with
  | [] => 0%nat
  | Up _ :: ps' => S (releases ps')
  | _ :: ps' => releases ps'
  end.

Fixpoint flag_after (ps : list pointer) (flag : bool) : bool :=
  match ps with
  | [] => flag
  | Down _ :: ps' => flag_after ps' true
  | Move _ :: ps' => flag_after ps' flag
  | Up _ :: ps' => flag_after ps' false
  end.

(** Whether [stop] is among the actions of a session. *)
Definition stopped (acts : list action) : bool :=
  existsb (fun a => match a with Stop _ => true | _ => false end) acts.

(** The snapshots that the notifications of a trace carry. *)
Definition announced (t : list notification) : list Snapshot :=
  omap (fun n => match event_data n with
                 | SnapshotData snapshot =>
                     if String.eqb (event_name n) "snapshot" then Some snapshot else None
                 | _ => None
                 end) t.

(** The listeners of the dynamic viewfinder, for the mouse and for touch. *)
Definition mouse_listeners : list (string * string) :=
  [("mousedown", "start"); ("mouseup", "stop"); ("mousemove", "draw")].

Definition touch_listeners : list (string * string) :=
  [("touchstart", "start"); ("touchend", "stop"); ("touchmove", "draw")].

(** * Properties *)

(** ** The store *)

Lemma deref_insert (h : gmap loc rect) (l : loc) (r : rect) :
  deref (<[l := r]> h) l = r.
Proof. unfold deref. by rewrite lookup_insert_eq. Qed.

Lemma deref_insert_ne (h : gmap loc rect) (l l' : loc) (r : rect) :
  l ≠ l' -> deref (<[l := r]> h) l' = deref h l'.
Proof. intros Hne. unfold deref. by rewrite lookup_insert_ne. Qed.

(** ** [eventCoords] on a pointer event at a point *)

Lemma truthy_or_same (n : Z) : (VNum n || VNum n)%js = VNum n.
Proof. unfold js_or. by destruct (truthy (VNum n)). Qed.

Lemma eventCoords_pointer_at (px py : Z) :
  eventCoords (pointer_at px py) = mkCoords (VNum px) (VNum py).
Proof. unfold eventCoords, pointer_at; simpl. by rewrite !truthy_or_same. Qed.

(** ** What each handler does *)

(** Unfolding of the statements the handlers are made of. *)
Ltac unfold_stmt :=
  unfold DynamicViewfinder.preventDefault, DynamicViewfinder.box_args,
    context_call, context_set, whole_canvas, get_context, get_canvas,
    assign, read, trigger, gets, modify, bind, ret, throw,
    with_heap, with_this, with_emitted.

Lemma start_run (evt : Event) (c : closure) (s : state) :
  DynamicViewfinder.start evt c s =
  (Normal (mkClosure true (box c)),
   with_heap (fun h =>
     <[box c := set_startY (y (eventCoords evt))
                  (set_startX (x (eventCoords evt)) (deref h (box c)))]> h) s).
Proof.
  unfold DynamicViewfinder.start. unfold_stmt. simpl.
  by rewrite deref_insert, insert_insert_eq.
Qed.

Lemma stop_run (evt : Event) (c : closure) (s : state) :
  DynamicViewfinder.stop evt c s =
  (Normal (mkClosure false (box c)),
   mkState (set_viewfinder (box c) (this s))
           (<[box c := set_endY (y (eventCoords evt))
                         (set_endX (x (eventCoords evt)) (deref (heap s) (box c)))]> (heap s))
           (page s)
           (emitted s ++ [mkNotification "change" NoData])).
Proof.
  unfold DynamicViewfinder.stop. unfold_stmt. simpl.
  by rewrite deref_insert, insert_insert_eq.
Qed.

Lemma draw_idle (evt : Event) (c : closure) (s : state) :
  isDragging c = false -> DynamicViewfinder.draw evt c s = (Normal c, s).
Proof.
  intros Hc. unfold DynamicViewfinder.draw. unfold_stmt.
  by rewrite Hc.
Qed.

Lemma draw_run (evt : Event) (c : closure) (s : state) :
  isDragging c = true -> surface s ->
  exists ctx' : Context2D,
    DynamicViewfinder.draw evt c s =
    (Normal c,
     mkState (set_context (Some ctx') (this s))
             (<[box c := set_height (y (eventCoords evt) - startY (deref (heap s) (box c)))
                           (set_width (x (eventCoords evt) - startX (deref (heap s) (box c)))
                              (deref (heap s) (box c)))]> (heap s))
             (page s)
             (emitted s)).
Proof.
  intros Hc [[ctx Hctx] [cv Hcv]].
  destruct s as [[vf sn cvs cx vd op el] h p t]; simpl in *; subst.
  unfold DynamicViewfinder.draw. unfold_stmt. cbn.
  rewrite Hc; cbn.
  rewrite !deref_insert, insert_insert_eq; cbn.
  eexists. reflexivity.
Qed.

(** ** A whole drag *)

Lemma set_context_same (i : instance) : set_context (context i) i = i.
Proof. by destruct i. Qed.

Lemma moved_cons (p : Z * Z) (ps : list (Z * Z)) (b : rect) :
  moved ps (set_height (VNum p.2 - startY b) (set_width (VNum p.1 - startX b) b))
  = moved (p :: ps) b.
Proof.
  unfold moved. rewrite last_cons. by destruct (last ps), b.
Qed.

Lemma updates_run (ps : list (Z * Z)) (c : closure) (s : state) :
  isDragging c = true -> surface s ->
  exists ctx' : Context2D,
    updates ps c s =
    (Normal c,
     mkState (set_context (Some ctx') (this s))
             (match ps with
              | [] => heap s
              | _ :: _ => <[box c := moved ps (deref (heap s) (box c))]> (heap s)
              end)
             (page s) (emitted s)).
Proof.
  intros Hc. revert s. induction ps as [|p ps IH]; intros s Hs.
  - destruct Hs as [[ctx Hctx] _]. exists ctx. simpl. unfold ret.
    rewrite <- Hctx, set_context_same. by destruct s.
  - simpl. unfold bind, updateDrag.
    destruct (draw_run (pointer_at p.1 p.2) c s Hc Hs) as [ctx1 ->].
    rewrite eventCoords_pointer_at; simpl.
    match goal with |- context [updates ps c ?s1] =>
      destruct (IH s1) as [ctx2 ->] end.
    { split; simpl; [eauto | apply Hs]. }
    exists ctx2. simpl. f_equal. f_equal.
    destruct ps as [|q ps]; [done|].
    by rewrite deref_insert, insert_insert_eq, moved_cons.
Qed.

Lemma drag_run (p0 : Z * Z) (ps : list (Z * Z)) (pn : Z * Z) (c : closure) (s : state) :
  surface s ->
  exists ctx' : Context2D,
    drag p0 ps pn c s =
    (Normal (mkClosure false (box c)),
     mkState (set_viewfinder (box c) (set_context (Some ctx') (this s)))
             (<[box c := dragged p0 ps pn (deref (heap s) (box c))]> (heap s))
             (page s)
             (emitted s ++ [mkNotification "change" NoData])).
Proof.
  intros Hs. unfold drag, bind, beginDrag, endDrag.
  rewrite start_run, eventCoords_pointer_at; simpl.
  match goal with |- context [updates ps ?c1 ?s1] =>
    destruct (updates_run ps c1 s1) as [ctx' ->]; [done | apply Hs |] end.
  exists ctx'. rewrite stop_run, eventCoords_pointer_at; simpl.
  f_equal. unfold dragged. f_equal.
  destruct ps as [|q ps]; simpl.
  - by rewrite deref_insert, insert_insert_eq.
  - by rewrite !deref_insert, !insert_insert_eq.
Qed.

(** ** What [takeSnapshot] does *)

(** The call either fails inside [drawImage], before anything was changed, or
    pushes and announces the snapshot and then invokes the callback. *)
Lemma takeSnapshot_run `{CanvasAPI} (callback : option (Snapshot -> M unit)) (s : state) :
  takeSnapshot callback s =
  match drawImage (Math_abs (width (currentRectangle s)))
                  (Math_abs (height (currentRectangle s)))
                  (video (this s))
                  (Math_min (startX (currentRectangle s)) (endX (currentRectangle s)))
                  (Math_min (startY (currentRectangle s)) (endY (currentRectangle s)))
                  (Math_abs (width (currentRectangle s)))
                  (Math_abs (height (currentRectangle s)))
                  (VNum 0) (VNum 0)
                  (Math_abs (width (currentRectangle s)))
                  (Math_abs (height (currentRectangle s)))
  with
  | Normal bitmap =>
      let snapshot := mkSnapshot (Math_abs (width (currentRectangle s)))
                                 (Math_abs (height (currentRectangle s))) bitmap in
      invoke callback snapshot (pushed snapshot s)
  | Throw e => (Throw e, s)
  end.
Proof.
  unfold takeSnapshot, bind, gets, modify, trigger, pushed; simpl.
  by destruct (drawImage _ _ _ _ _ _ _ _ _ _ _).
Qed.

(** [takeSnapshot] sees of the state only the video and the rectangle, and of
    the rectangle only the two minima and the two absolute extents. *)
Lemma taken_same `{CanvasAPI} (s1 s2 : state) :
  video (this s1) = video (this s2) ->
  Math_min (startX (currentRectangle s1)) (endX (currentRectangle s1))
    = Math_min (startX (currentRectangle s2)) (endX (currentRectangle s2)) ->
  Math_min (startY (currentRectangle s1)) (endY (currentRectangle s1))
    = Math_min (startY (currentRectangle s2)) (endY (currentRectangle s2)) ->
  Math_abs (width (currentRectangle s1)) = Math_abs (width (currentRectangle s2)) ->
  Math_abs (height (currentRectangle s1)) = Math_abs (height (currentRectangle s2)) ->
  taken s1 = taken s2.
Proof.
  intros Hv Hx Hy Hw Hh. unfold taken. rewrite !takeSnapshot_run.
  rewrite Hv, Hx, Hy, Hw, Hh.
  destruct (drawImage _ _ _ _ _ _ _ _ _ _ _); [|done].
  simpl. unfold ret, pushed; simpl. by rewrite !last_snoc.
Qed.

Lemma Math_min_comm (a b : val) : Math_min a b = Math_min b a.
Proof. destruct a, b; simpl; try done. by rewrite Z.min_comm. Qed.

Lemma Math_abs_opposite (a : val) : Math_abs (VNum 0 - a) = Math_abs a.
Proof. destruct a; unfold js_sub; simpl; try done. f_equal. lia. Qed.

(** Canonicalization on rectangles: a rectangle and its opposite yield the
    same snapshot of the same video. *)
Lemma taken_opposite `{CanvasAPI} (s1 s2 : state) :
  video (this s1) = video (this s2) ->
  currentRectangle s2 = opposite (currentRectangle s1) ->
  taken s1 = taken s2.
Proof.
  intros Hv Hr. apply taken_same; [done|..]; rewrite Hr; simpl.
  - apply Math_min_comm.
  - apply Math_min_comm.
  - by rewrite Math_abs_opposite.
  - by rewrite Math_abs_opposite.
Qed.

(** ** The rectangle a drag commits *)

Lemma drag_commits (p0 : Z * Z) (ps : list (Z * Z)) (pn : Z * Z) (c : closure) (s : state) :
  surface s ->
  outcome (drag p0 ps pn c) s = Normal (mkClosure false (box c)) /\
  viewfinder (this (exec (drag p0 ps pn c) s)) = box c /\
  currentRectangle (exec (drag p0 ps pn c) s) = dragged p0 ps pn (deref (heap s) (box c)) /\
  emitted (exec (drag p0 ps pn c) s) = emitted s ++ [mkNotification "change" NoData] /\
  video (this (exec (drag p0 ps pn c) s)) = video (this s) /\
  surface (exec (drag p0 ps pn c) s).
Proof.
  intros Hs. destruct (drag_run p0 ps pn c s Hs) as [ctx' Hrun].
  unfold outcome, exec, currentRectangle, surface. rewrite Hrun; simpl.
  rewrite deref_insert. repeat split; eauto. apply Hs.
Qed.



(** Without a move the extents are what the box held before the drag. *)
Lemma dragged_extents_stale (p0 pn : Z * Z) (b : rect) :
  width (dragged p0 [] pn b) = width b /\ height (dragged p0 [] pn b) = height b.
Proof. done. Qed.

(** ** The page the examples run on *)

Lemma ready_is_tracker (w h : Z) :
  ready w h = Some (tracker_closure, tracker_state w h).
Proof. vm_compute. reflexivity. Qed.

Lemma tracker_surface (w h : Z) : surface (tracker_state w h).
Proof. split; eexists; reflexivity. Qed.

(** ** The region tracker *)

(** C1: the drag of the scenario, [begin(100,50)], [update(40,50)],
    [end(40,200)] on a surface of 640 by 480, commits the corners (100,50) and
    (40,200) and the width -60, but the height 0 of the last [updateDrag], not
    the 150 of the release point: [endDrag] sets [endX] and [endY] and leaves
    [width] and [height] as the last move computed them. *)
Theorem C1_scenario_commits_height_of_last_move :
  ready 640 480 = Some (tracker_closure, tracker_state 640 480) /\
  outcome (drag (100, 50) [(40, 50)] (40, 200) tracker_closure) (tracker_state 640 480)
  = Normal (mkClosure false 2%nat) /\
  currentRectangle
    (exec (drag (100, 50) [(40, 50)] (40, 200) tracker_closure) (tracker_state 640 480))
  = mkRect (VNum 100) (VNum 50) (VNum 40) (VNum 200) (VNum (-60)) (VNum 0) /\
  height (currentRectangle
    (exec (drag (100, 50) [(40, 50)] (40, 200) tracker_closure) (tracker_state 640 480)))
  <> VNum (200 - 50).
Proof.
  split; [apply ready_is_tracker|]. vm_compute.
  split; [reflexivity|]. split; [reflexivity|]. discriminate.
Qed.

(** Counterexample to C2: after a drag from (1,1) to (5,4) has committed its
    rectangle, the [beginDrag] of the next gesture at (2,3) rewrites [startX]
    and [startY] of that very object, and no [change] is emitted. *)
Lemma C2_next_beginDrag_rewrites_committed :
  let s1 := exec (drag (1, 1) [(5, 4)] (5, 4) tracker_closure) (tracker_state 8 6) in
  let s2 := exec (beginDrag 2 3 (mkClosure false 2%nat)) s1 in
  outcome (drag (1, 1) [(5, 4)] (5, 4) tracker_closure) (tracker_state 8 6)
  = Normal (mkClosure false 2%nat) /\
  deref (heap s1) (viewfinder (this s1))
  = mkRect (VNum 1) (VNum 1) (VNum 5) (VNum 4) (VNum 4) (VNum 3) /\
  deref (heap s2) (viewfinder (this s1))
  = mkRect (VNum 2) (VNum 3) (VNum 5) (VNum 4) (VNum 4) (VNum 3) /\
  emitted s2 = emitted s1.
Proof. vm_compute. repeat split; reflexivity. Qed.

(** C2, as the code has it: a drag completion makes [this.viewfinder] refer to the one
    session box of the tracker, which outlives the gesture.  So after any
    completion the committed Rectangle is the box: the [beginDrag] of the next
    gesture overwrites its [startX] and [startY] in place, and an [updateDrag]
    of that gesture overwrites its [width] and [height]; [endX] and [endY]
    keep their values, the reference does not change and nothing is
    notified until [endDrag]. *)
Theorem C2_committed_rectangle_is_the_session_box
    (up down move : Event) (c : closure) (s : state) :
  surface s ->
  let s1 := exec (DynamicViewfinder.stop up c) s in
  let c1 := mkClosure false (box c) in
  let s2 := exec (DynamicViewfinder.start down c1) s1 in
  let c2 := mkClosure true (box c) in
  let s3 := exec (DynamicViewfinder.draw move c2) s2 in
  outcome (DynamicViewfinder.stop up c) s = Normal c1 /\
  outcome (DynamicViewfinder.start down c1) s1 = Normal c2 /\
  outcome (DynamicViewfinder.draw move c2) s2 = Normal c2 /\
  viewfinder (this s1) = box c /\
  viewfinder (this s2) = box c /\
  viewfinder (this s3) = box c /\
  currentRectangle s2
  = set_startY (y (eventCoords down)) (set_startX (x (eventCoords down))
      (currentRectangle s1)) /\
  currentRectangle s3
  = set_height (y (eventCoords move) - startY (currentRectangle s2))
      (set_width (x (eventCoords move) - startX (currentRectangle s2))
         (currentRectangle s2)) /\
  emitted s3 = emitted s1.
Proof.
  intros Hs s1 c1 s2 c2 s3.
  assert (Hs2 : surface s2).
  { subst s2 s1. unfold exec. rewrite stop_run, start_run. apply Hs. }
  destruct (draw_run move c2 s2 eq_refl Hs2) as [ctx' Hdraw].
  subst s3. unfold outcome, exec, currentRectangle. rewrite Hdraw.
  subst s2. unfold exec. rewrite start_run.
  subst s1. unfold exec. rewrite stop_run. simpl.
  rewrite !deref_insert. done.
Qed.

Lemma C2_committed_rectangle_is_the_session_box_witness :
  surface (tracker_state 8 6) /\
  currentRectangle
    (exec (DynamicViewfinder.draw (pointer_at 4 4) (mkClosure true 2%nat))
       (exec (DynamicViewfinder.start (pointer_at 2 3) (mkClosure false 2%nat))
          (exec (DynamicViewfinder.stop (pointer_at 5 4) tracker_closure)
             (tracker_state 8 6))))
  = mkRect (VNum 2) (VNum 3) (VNum 5) (VNum 4) (VNum 2) (VNum 1).
Proof.
  assert (Hs : surface (tracker_state 8 6)) by (split; eexists; reflexivity).
  split; [exact Hs|].
  destruct (C2_committed_rectangle_is_the_session_box
              (pointer_at 5 4) (pointer_at 2 3) (pointer_at 4 4)
              tracker_closure (tracker_state 8 6) Hs)
    as (_ & _ & _ & _ & _ & _ & _ & H & _).
  etransitivity; [exact H|]. vm_compute. reflexivity.
Defined.

(** Counterexample to C3: on a tracker that was just set up, with no drag
    in progress, an [endDrag] at (5,7) replaces the full-frame rectangle by
    the session box, of which only [endX] and [endY] are set, and emits
    [change]. *)
Lemma C3_stray_endDrag_commits_the_box :
  isDragging tracker_closure = false /\
  currentRectangle (tracker_state 8 6)
  = mkRect (VNum 0) (VNum 0) (VNum 8) (VNum 6) (VNum 8) (VNum 6) /\
  currentRectangle (exec (endDrag 5 7 tracker_closure) (tracker_state 8 6))
  = mkRect VUndef VUndef (VNum 5) (VNum 7) VUndef VUndef /\
  emitted (exec (endDrag 5 7 tracker_closure) (tracker_state 8 6))
  = emitted (tracker_state 8 6) ++ [mkNotification "change" NoData].
Proof. vm_compute. repeat split; reflexivity. Qed.

(** C3, as the code has it: [endDrag] when no drag session is active does what it does
    when one is: it sets [endX] and [endY] of the session box to the point,
    makes the box the committed Rectangle and emits one [change]
    notification.  It throws no exception and the session stays inactive. *)
Theorem C3_endDrag_without_session_commits (px py : Z) (c : closure) (s : state) :
  isDragging c = false ->
  outcome (endDrag px py c) s = Normal (mkClosure false (box c)) /\
  viewfinder (this (exec (endDrag px py c) s)) = box c /\
  currentRectangle (exec (endDrag px py c) s)
  = set_endY (VNum py) (set_endX (VNum px) (deref (heap s) (box c))) /\
  emitted (exec (endDrag px py c) s) = emitted s ++ [mkNotification "change" NoData].
Proof.
  intros _. unfold outcome, exec, endDrag, currentRectangle.
  rewrite stop_run, eventCoords_pointer_at; simpl.
  by rewrite deref_insert.
Qed.

Lemma C3_endDrag_without_session_commits_witness :
  isDragging tracker_closure = false /\
  emitted (exec (endDrag 5 7 tracker_closure) (tracker_state 8 6))
  = [mkNotification "start" NoData; mkNotification "change" NoData].
Proof.
  split; [reflexivity|].
  destruct (C3_endDrag_without_session_commits 5 7 tracker_closure (tracker_state 8 6)
              eq_refl) as (_ & _ & _ & H).
  exact H.
Defined.

(** Counterexample to C6: a second [beginDrag] at (4,5) while the drag begun
    at (1,1) is active moves the anchor of the session to (4,5). *)
Lemma C6_second_beginDrag_moves_the_anchor :
  let s1 := exec (beginDrag 1 1 tracker_closure) (tracker_state 8 6) in
  let s2 := exec (beginDrag 4 5 (mkClosure true 2%nat)) s1 in
  outcome (beginDrag 1 1 tracker_closure) (tracker_state 8 6)
  = Normal (mkClosure true 2%nat) /\
  deref (heap s1) 2%nat = mkRect (VNum 1) (VNum 1) VUndef VUndef VUndef VUndef /\
  deref (heap s2) 2%nat = mkRect (VNum 4) (VNum 5) VUndef VUndef VUndef VUndef.
Proof. vm_compute. repeat split; reflexivity. Qed.

(** C6, as the code has it: [beginDrag] while a drag session is active replaces the
    anchor [(startX, startY)] of the session by the new point.  The session
    stays active, the other four fields of the rectangle under construction
    and every other object are left as they were, nothing is notified and no
    exception is thrown. *)
Theorem C6_beginDrag_during_session_moves_anchor (px py : Z) (c : closure) (s : state) :
  isDragging c = true ->
  outcome (beginDrag px py c) s = Normal (mkClosure true (box c)) /\
  deref (heap (exec (beginDrag px py c) s)) (box c)
  = set_startY (VNum py) (set_startX (VNum px) (deref (heap s) (box c))) /\
  (forall l : loc, l <> box c ->
     deref (heap (exec (beginDrag px py c) s)) l = deref (heap s) l) /\
  this (exec (beginDrag px py c) s) = this s /\
  emitted (exec (beginDrag px py c) s) = emitted s.
Proof.
  intros _. unfold outcome, exec, beginDrag.
  rewrite start_run, eventCoords_pointer_at; simpl.
  rewrite deref_insert. repeat split; try done.
  intros l Hl. by rewrite deref_insert_ne.
Qed.

Lemma C6_beginDrag_during_session_moves_anchor_witness :
  isDragging (mkClosure true 2%nat) = true /\
  deref (heap (exec (beginDrag 4 5 (mkClosure true 2%nat))
                 (exec (beginDrag 1 1 tracker_closure) (tracker_state 8 6)))) 2%nat
  = mkRect (VNum 4) (VNum 5) VUndef VUndef VUndef VUndef.
Proof.
  split; [reflexivity|].
  destruct (C6_beginDrag_during_session_moves_anchor 4 5 (mkClosure true 2%nat)
              (exec (beginDrag 1 1 tracker_closure) (tracker_state 8 6)) eq_refl)
    as (_ & H & _).
  etransitivity; [exact H|]. vm_compute. reflexivity.
Defined.

(** ** The snapshot extractor *)

Section Extractor.

Context `{CanvasAPI}.




End Extractor.



(** ** The constructor and [stop] *)

(** C8: when [navigator] has none of [getUserMedia], [webkitGetUserMedia]
    and [mozGetUserMedia], the constructor throws, whatever the document, the
    selector and the options: the test comes before every assignment to
    [this], so the caller gets the exception and no instance. *)
Theorem C8_constructor_throws_without_getUserMedia
    (navigator : Navigator) (document : Document) (selector : string) (opts : option bool) :
  getUserMedia navigator = false ->
  webkitGetUserMedia navigator = false ->
  mozGetUserMedia navigator = false ->
  SayCheese navigator document selector opts
  = Throw (Error "getUserMedia() is not supported in this browser").
Proof.
  intros H1 H2 H3. unfold SayCheese, userMediaFeatureExists.
  by rewrite H1, H2, H3.
Qed.

Lemma C8_constructor_throws_without_getUserMedia_witness :
  getUserMedia (mkNavigator false false false) = false /\
  webkitGetUserMedia (mkNavigator false false false) = false /\
  mozGetUserMedia (mkNavigator false false false) = false /\
  SayCheese (mkNavigator false false false) demo_document "#cam" (Some true)
  = Throw (Error "getUserMedia() is not supported in this browser").
Proof.
  split; [reflexivity|]. split; [reflexivity|]. split; [reflexivity|].
  apply (C8_constructor_throws_without_getUserMedia
           (mkNavigator false false false) demo_document "#cam" (Some true));
    reflexivity.
Defined.

(** No scope of the library binds the identifier [video] that [stop] uses. *)
Lemma video_is_free : "video" ∉ ["stop"; "arguments"] ++ module_scope.
Proof. apply (bool_decide_unpack _). by vm_compute. Qed.



(** * Further properties of the code *)

(** ** Sequences of pointer events *)

(** What any sequence of pointer events does to a tracker whose canvas is set
    up: no handler throws, [isDragging] follows the presses and releases,
    [this.viewfinder] becomes the session box at the first release, each
    release emits one [change], and in the store only the box is written. *)
Lemma dispatch_all_run (ps : list pointer) :
  forall (c : closure) (s : state),
    surface s ->
    exists (ctx' : Context2D) (h' : gmap loc rect),
      dispatch_all ps c s =
      (Normal (mkClosure (flag_after ps (isDragging c)) (box c)),
       mkState (set_viewfinder (match releases ps with
                                | O => viewfinder (this s)
                                | S _ => box c
                                end)
                  (set_context (Some ctx') (this s)))
               h' (page s)
               (emitted s ++ replicate (releases ps) (mkNotification "change" NoData))) /\
      (forall l : loc, l <> box c -> h' !! l = heap s !! l).
Proof.
  induction ps as [|p ps IH]; intros c s Hs.
  - destruct Hs as [[ctx Hctx] _]. exists ctx, (heap s). split; [|done].
    simpl. unfold ret. rewrite app_nil_r, <- Hctx, set_context_same.
    by destruct c, s as [[] ? ? ?].
  - destruct p as [evt|evt|evt]; simpl; unfold bind.
    + rewrite start_run.
      match goal with |- context [dispatch_all ps ?c1 ?s1] =>
        destruct (IH c1 s1) as (ctx' & h' & -> & Hh); [apply Hs|] end.
      exists ctx', h'. split; [done|].
      intros l Hl. rewrite Hh by done. simpl. by rewrite lookup_insert_ne.
    + destruct (isDragging c) eqn:Hc.
      * destruct (draw_run evt c s Hc Hs) as [ctx1 ->].
        match goal with |- context [dispatch_all ps c ?s1] =>
          destruct (IH c s1) as (ctx' & h' & -> & Hh) end.
        { split; simpl; [eauto | apply Hs]. }
        exists ctx', h'. rewrite Hc. split; [done|].
        intros l Hl. rewrite Hh by done. simpl. by rewrite lookup_insert_ne.
      * rewrite (draw_idle evt c s Hc).
        destruct (IH c s Hs) as (ctx' & h' & -> & Hh).
        exists ctx', h'. by rewrite Hc.
    + rewrite stop_run.
      match goal with |- context [dispatch_all ps ?c1 ?s1] =>
        destruct (IH c1 s1) as (ctx' & h' & -> & Hh); [apply Hs|] end.
      exists ctx', h'. split.
      * simpl. rewrite <- app_assoc. by destruct (releases ps).
      * intros l Hl. rewrite Hh by done. simpl. by rewrite lookup_insert_ne.
Qed.

(** X1: once the canvas is set up, no sequence of pointer events makes a
    handler throw, whatever the order of presses, moves and releases, and the
    canvas and its context are still there afterwards. *)
Theorem pointer_events_never_throw (ps : list pointer) (c : closure) (s : state) :
  surface s ->
  (exists c' : closure, outcome (dispatch_all ps c) s = Normal c') /\
  surface (exec (dispatch_all ps c) s).
Proof.
  intros Hs. destruct (dispatch_all_run ps c s Hs) as (ctx' & h' & Hrun & _).
  unfold outcome, exec. rewrite Hrun. split; [eauto|].
  split; simpl; [eauto | apply Hs].
Qed.

Lemma pointer_events_never_throw_witness :
  surface (tracker_state 8 6) /\
  exists c' : closure,
    outcome (dispatch_all [Up (pointer_at 1 1); Down (pointer_at 2 2); Down (pointer_at 3 3);
                           Move (mkEvent VUndef VUndef VUndef VUndef)]
               tracker_closure) (tracker_state 8 6) = Normal c'.
Proof.
  assert (Hs : surface (tracker_state 8 6)) by (split; eexists; reflexivity).
  split; [exact Hs|].
  exact (proj1 (pointer_events_never_throw _ tracker_closure (tracker_state 8 6) Hs)).
Defined.

(** X2: after any sequence of pointer events the session is active exactly
    when the last press or release was a press (and is as before when there
    was neither); the session box is the same object throughout. *)
Theorem session_flag_follows_last_press_or_release
    (ps : list pointer) (c : closure) (s : state) :
  surface s ->
  outcome (dispatch_all ps c) s
  = Normal (mkClosure (flag_after ps (isDragging c)) (box c)).
Proof.
  intros Hs. destruct (dispatch_all_run ps c s Hs) as (ctx' & h' & Hrun & _).
  unfold outcome. by rewrite Hrun.
Qed.

Lemma session_flag_follows_last_press_or_release_witness :
  surface (tracker_state 8 6) /\
  outcome (dispatch_all [Down (pointer_at 1 1); Move (pointer_at 2 2); Up (pointer_at 2 2);
                         Move (pointer_at 3 3); Down (pointer_at 4 4)]
             tracker_closure) (tracker_state 8 6)
  = Normal (mkClosure true 2%nat).
Proof.
  assert (Hs : surface (tracker_state 8 6)) by (split; eexists; reflexivity).
  split; [exact Hs|].
  exact (session_flag_follows_last_press_or_release _ tracker_closure (tracker_state 8 6) Hs).
Defined.

(** X3: pointer events write to one object of the store only, the session
    box: every other rectangle object reads after any sequence of events as
    it did before.  [this.viewfinder] is left alone while no release occurs
    and refers to the box from the first release on. *)
Theorem pointer_events_write_only_the_box (ps : list pointer) (c : closure) (s : state) :
  surface s ->
  (forall l : loc, l <> box c ->
     deref (heap (exec (dispatch_all ps c) s)) l = deref (heap s) l) /\
  viewfinder (this (exec (dispatch_all ps c) s))
  = match releases ps with
    | O => viewfinder (this s)
    | S _ => box c
    end.
Proof.
  intros Hs. destruct (dispatch_all_run ps c s Hs) as (ctx' & h' & Hrun & Hh).
  unfold exec. rewrite Hrun; simpl. split; [|done].
  intros l Hl. unfold deref. by rewrite Hh.
Qed.

Lemma pointer_events_write_only_the_box_witness :
  surface (tracker_state 8 6) /\
  deref (heap (exec (dispatch_all [Down (pointer_at 1 1); Move (pointer_at 5 4)]
                       tracker_closure) (tracker_state 8 6))) 1%nat
  = deref (heap (tracker_state 8 6)) 1%nat.
Proof.
  assert (Hs : surface (tracker_state 8 6)) by (split; eexists; reflexivity).
  split; [exact Hs|].
  apply (proj1 (pointer_events_write_only_the_box
                  [Down (pointer_at 1 1); Move (pointer_at 5 4)]
                  tracker_closure (tracker_state 8 6) Hs)).
  discriminate.
Defined.

(** X4: a sequence of pointer events emits exactly one [change] notification
    per release, after the notifications that were there, and no other
    notification: presses and moves announce nothing. *)
Theorem one_change_per_release (ps : list pointer) (c : closure) (s : state) :
  surface s ->
  emitted (exec (dispatch_all ps c) s)
  = emitted s ++ replicate (releases ps) (mkNotification "change" NoData).
Proof.
  intros Hs. destruct (dispatch_all_run ps c s Hs) as (ctx' & h' & Hrun & _).
  unfold exec. by rewrite Hrun.
Qed.

Lemma one_change_per_release_witness :
  surface (tracker_state 8 6) /\
  emitted (exec (dispatch_all [Down (pointer_at 1 1); Move (pointer_at 2 2); Up (pointer_at 2 2);
                               Up (pointer_at 3 3)] tracker_closure) (tracker_state 8 6))
  = [mkNotification "start" NoData; mkNotification "change" NoData;
     mkNotification "change" NoData].
Proof.
  assert (Hs : surface (tracker_state 8 6)) by (split; eexists; reflexivity).
  split; [exact Hs|].
  exact (one_change_per_release _ tracker_closure (tracker_state 8 6) Hs).
Defined.

(** X5: while no drag session is active, pointer moves do nothing at all:
    whatever their number and coordinates, the state, the canvas included,
    is the one of before. *)
Theorem idle_moves_change_nothing (evts : list Event) (c : closure) (s : state) :
  isDragging c = false ->
  dispatch_all (Move <$> evts) c s = (Normal c, s).
Proof.
  intros Hc. induction evts as [|evt evts IH]; [done|].
  simpl. unfold bind. by rewrite (draw_idle evt c s Hc).
Qed.

Lemma idle_moves_change_nothing_witness :
  isDragging tracker_closure = false /\
  dispatch_all (Move <$> [pointer_at 1 1; pointer_at 7 5]) tracker_closure (tracker_state 8 6)
  = (Normal tracker_closure, tracker_state 8 6).
Proof.
  split; [reflexivity|].
  exact (idle_moves_change_nothing [pointer_at 1 1; pointer_at 7 5]
           tracker_closure (tracker_state 8 6) eq_refl).
Defined.

(** X6: a drag whose last move is at the point where it is released commits a
    rectangle whose extents are the signed differences of its corners:
    [width = endX - startX] and [height = endY - startY], with the anchor as
    start and the release point as end. *)
Theorem drag_released_where_last_moved
    (p0 pn : Z * Z) (ms : list (Z * Z)) (c : closure) (s : state) :
  surface s ->
  currentRectangle (exec (drag p0 (ms ++ [pn]) pn c) s)
  = mkRect (VNum p0.1) (VNum p0.2) (VNum pn.1) (VNum pn.2)
           (VNum (pn.1 - p0.1)) (VNum (pn.2 - p0.2)).
Proof.
  intros Hs. destruct (drag_commits p0 (ms ++ [pn]) pn c s Hs) as (_ & _ & -> & _).
  unfold dragged, moved. rewrite last_snoc. reflexivity.
Qed.

Lemma drag_released_where_last_moved_witness :
  surface (tracker_state 8 6) /\
  currentRectangle (exec (drag (6, 1) ([(4, 4)] ++ [(2, 5)]) (2, 5) tracker_closure)
                      (tracker_state 8 6))
  = mkRect (VNum 6) (VNum 1) (VNum 2) (VNum 5) (VNum (-4)) (VNum 4).
Proof.
  assert (Hs : surface (tracker_state 8 6)) by (split; eexists; reflexivity).
  split; [exact Hs|].
  exact (drag_released_where_last_moved (6, 1) (2, 5) [(4, 4)]
           tracker_closure (tracker_state 8 6) Hs).
Defined.

(** ** Coordinates at the edge of the canvas *)

(** X7: [eventCoords] takes [offsetX] and [offsetY] only when they are
    truthy.  A press whose [offsetX] or [offsetY] is [0], on the left or the
    top edge of the canvas, is therefore anchored at [layerX] or [layerY],
    whatever these are, [undefined] included. *)
Theorem press_on_the_edge_is_anchored_at_layer
    (evt : Event) (c : closure) (s : state) :
  offsetX evt = VNum 0 -> offsetY evt = VNum 0 ->
  startX (deref (heap (exec (DynamicViewfinder.start evt c) s)) (box c)) = layerX evt /\
  startY (deref (heap (exec (DynamicViewfinder.start evt c) s)) (box c)) = layerY evt.
Proof.
  intros Hx Hy. unfold exec. rewrite start_run; simpl. rewrite deref_insert.
  unfold eventCoords, js_or. by rewrite Hx, Hy.
Qed.

Lemma press_on_the_edge_is_anchored_at_layer_witness :
  offsetX (mkEvent (VNum 0) (VNum 12) (VNum 0) VUndef) = VNum 0 /\
  offsetY (mkEvent (VNum 0) (VNum 12) (VNum 0) VUndef) = VNum 0 /\
  startX (deref (heap (exec (DynamicViewfinder.start
                               (mkEvent (VNum 0) (VNum 12) (VNum 0) VUndef) tracker_closure)
                         (tracker_state 8 6))) 2%nat) = VNum 12 /\
  startY (deref (heap (exec (DynamicViewfinder.start
                               (mkEvent (VNum 0) (VNum 12) (VNum 0) VUndef) tracker_closure)
                         (tracker_state 8 6))) 2%nat) = VUndef.
Proof.
  split; [reflexivity|]. split; [reflexivity|].
  exact (press_on_the_edge_is_anchored_at_layer
           (mkEvent (VNum 0) (VNum 12) (VNum 0) VUndef) tracker_closure (tracker_state 8 6)
           eq_refl eq_refl).
Defined.

(** ** The feedback drawn during a drag *)

(** X8: each move of an active drag repaints the canvas: it leaves the
    context in [xor] mode with the shade as fill style, a stroke of width 2,
    and paints, in this order, a clear and a fill of the whole canvas and a
    stroke and a fill of the selection, from the anchor with the signed
    extents to the point of the move. *)
Theorem move_repaints_the_selection
    (evt : Event) (c : closure) (s : state) (ctx : Context2D) (cv : Canvas) :
  isDragging c = true ->
  context (this s) = Some ctx ->
  canvas (this s) = Some cv ->
  let b := deref (heap s) (box c) in
  let w := (x (eventCoords evt) - startX b)%js in
  let h := (y (eventCoords evt) - startY b)%js in
  context (this (exec (DynamicViewfinder.draw evt c) s))
  = Some (mkContext2D "xor" "rgba(0, 0, 0, .8)" "rgba(255, 255, 255, .5)" 2
            (painted ctx ++
             [clearRect (VNum 0) (VNum 0) (canvas_width cv) (canvas_height cv);
              fillRect (VNum 0) (VNum 0) (canvas_width cv) (canvas_height cv);
              strokeRect (startX b) (startY b) w h;
              fillRect (startX b) (startY b) w h])).
Proof.
  intros Hc Hctx Hcv b w h. subst b w h.
  destruct s as [[vf sn cvs cx vd op el] hp p t]; simpl in *; subst.
  unfold exec, DynamicViewfinder.draw. unfold_stmt. cbn.
  rewrite Hc; cbn.
  rewrite !deref_insert; cbn.
  unfold paints, set_lineWidth, set_strokeStyle, set_fillStyle,
    set_globalCompositeOperation; simpl.
  by rewrite <- !app_assoc.
Qed.

Lemma move_repaints_the_selection_witness :
  isDragging (mkClosure true 2%nat) = true /\
  (painted <$> context (this (exec (DynamicViewfinder.draw (pointer_at 2 1) (mkClosure true 2%nat))
                                (exec (beginDrag 6 5 tracker_closure) (tracker_state 8 6)))))
  = Some [clearRect (VNum 0) (VNum 0) (VNum 8) (VNum 6);
          fillRect (VNum 0) (VNum 0) (VNum 8) (VNum 6);
          strokeRect (VNum 6) (VNum 5) (VNum (-4)) (VNum (-4));
          fillRect (VNum 6) (VNum 5) (VNum (-4)) (VNum (-4))].
Proof.
  split; [reflexivity|].
  rewrite (move_repaints_the_selection (pointer_at 2 1) (mkClosure true 2%nat)
             (exec (beginDrag 6 5 tracker_closure) (tracker_state 8 6))
             (mkContext2D "source-over" "#000000" "#000000" 1 [])
             (mkCanvas 3%nat (VNum 8) (VNum 6) "absolute" (VNum 0) (VNum 0) "crosshair"
                mouse_listeners)
             eq_refl eq_refl eq_refl).
  vm_compute. reflexivity.
Defined.

(** ** Resetting the viewfinder *)

Lemma resetViewfinder_run (s : state) (ctx : Context2D) (cv : Canvas) (v : Video) :
  context (this s) = Some ctx ->
  canvas (this s) = Some cv ->
  video (this s) = Some v ->
  resetViewfinder s =
  (Normal tt,
   mkState
     (set_viewfinder (fresh (dom (heap s)))
        (set_context
           (Some (paints (clearRect (VNum 0) (VNum 0) (canvas_width cv) (canvas_height cv))
                    (set_globalCompositeOperation "source-over" ctx)))
           (this s)))
     (<[fresh (dom (heap s)) := full_frame v]> (heap s))
     (page s)
     (emitted s ++ [mkNotification "change" NoData])).
Proof.
  intros Hctx Hcv Hv.
  destruct s as [[vf sn cvs cx vd op el] hp p t]; simpl in *; subst.
  reflexivity.
Qed.

Lemma fresh_not_allocated (h : gmap loc rect) (l : loc) :
  is_Some (h !! l) -> l <> fresh (dom h).
Proof.
  intros Hl ->. apply elem_of_dom in Hl. by apply is_fresh in Hl.
Qed.

(** X9: [resetViewfinder] commits the rectangle of the whole video as a new
    object and emits [change].  The session box is not that object, so, unlike
    after a drag, the presses and moves that follow leave the committed
    rectangle as it is, until a release. *)
Theorem reset_rectangle_is_not_the_session_box
    (ps : list pointer) (c : closure) (s : state) (v : Video) :
  surface s ->
  video (this s) = Some v ->
  is_Some (heap s !! box c) ->
  releases ps = 0%nat ->
  outcome resetViewfinder s = Normal tt /\
  currentRectangle (exec resetViewfinder s) = full_frame v /\
  emitted (exec resetViewfinder s) = emitted s ++ [mkNotification "change" NoData] /\
  deref (heap (exec resetViewfinder s)) (box c) = deref (heap s) (box c) /\
  currentRectangle (exec (dispatch_all ps c) (exec resetViewfinder s)) = full_frame v.
Proof.
  intros Hs Hv Hbox Hps.
  pose proof Hs as [[ctx Hctx] [cv Hcv]].
  pose proof (fresh_not_allocated _ _ Hbox) as Hne.
  unfold outcome, exec, currentRectangle.
  rewrite (resetViewfinder_run s ctx cv v Hctx Hcv Hv). simpl.
  match goal with |- context [dispatch_all ps c ?s1] =>
    destruct (dispatch_all_run ps c s1) as (ctx' & h' & -> & Hframe) end.
  { split; simpl; [eauto | by rewrite Hcv]. }
  simpl in *. rewrite Hps. unfold deref at 4. rewrite Hframe by done.
  rewrite deref_insert, deref_insert_ne by done.
  unfold deref. by rewrite lookup_insert_eq.
Qed.

Lemma reset_rectangle_is_not_the_session_box_witness :
  let s := exec (drag (1, 1) [(5, 4)] (5, 4) tracker_closure) (tracker_state 8 6) in
  surface s /\
  currentRectangle s = mkRect (VNum 1) (VNum 1) (VNum 5) (VNum 4) (VNum 4) (VNum 3) /\
  currentRectangle
    (exec (dispatch_all [Down (pointer_at 2 3); Move (pointer_at 7 5)] tracker_closure)
       (exec resetViewfinder s))
  = mkRect (VNum 0) (VNum 0) (VNum 8) (VNum 6) (VNum 8) (VNum 6).
Proof.
  intros s.
  assert (Hs : surface s) by (split; eexists; vm_compute; reflexivity).
  split; [exact Hs|]. split; [vm_compute; reflexivity|].
  destruct (reset_rectangle_is_not_the_session_box
              [Down (pointer_at 2 3); Move (pointer_at 7 5)] tracker_closure s
              (mkVideo 2%nat 8 6 0 0 true "blob:stream" (test_frame 8 6)) Hs)
    as (_ & _ & _ & _ & H).
  - vm_compute. reflexivity.
  - eexists. vm_compute. reflexivity.
  - reflexivity.
  - exact H.
Defined.

(** X10: a snapshot taken right after [resetViewfinder], on a video whose
    layout box has no negative side, is the whole frame: [drawImage] is asked
    to copy the rectangle at (0, 0) of the size of the video onto a canvas of
    that size, at (0, 0) and unscaled, and the snapshot has that size. *)
Theorem snapshot_after_reset_is_the_whole_frame `{CanvasAPI}
    (s : state) (v : Video) (bitmap : Bitmap) :
  surface s ->
  video (this s) = Some v ->
  0 <= offsetWidth v -> 0 <= offsetHeight v ->
  drawImage (VNum (offsetWidth v)) (VNum (offsetHeight v)) (Some v)
            (VNum 0) (VNum 0) (VNum (offsetWidth v)) (VNum (offsetHeight v))
            (VNum 0) (VNum 0) (VNum (offsetWidth v)) (VNum (offsetHeight v))
  = Normal bitmap ->
  taken (exec resetViewfinder s)
  = Some (mkSnapshot (VNum (offsetWidth v)) (VNum (offsetHeight v)) bitmap).
Proof.
  intros [[ctx Hctx] [cv Hcv]] Hv Hw Hh Hdraw.
  unfold taken, exec. rewrite (resetViewfinder_run s ctx cv v Hctx Hcv Hv).
  rewrite takeSnapshot_run. unfold currentRectangle; simpl.
  rewrite deref_insert; simpl.
  rewrite !Z.abs_eq, !Z.min_l, Hv, Hdraw by done.
  simpl. unfold ret, pushed; simpl. by rewrite last_snoc.
Qed.

Lemma snapshot_after_reset_is_the_whole_frame_witness :
  let s := exec (drag (1, 1) [(5, 4)] (5, 4) tracker_closure) (tracker_state 4 3) in
  surface s /\
  @taken clipping_canvas (exec resetViewfinder s)
  = Some (mkSnapshot (VNum 4) (VNum 3) [[1; 2; 3; 4]; [5; 6; 7; 8]; [9; 10; 11; 12]]).
Proof.
  intros s.
  assert (Hs : surface s) by (split; eexists; vm_compute; reflexivity).
  split; [exact Hs|].
  apply (@snapshot_after_reset_is_the_whole_frame clipping_canvas s
           (mkVideo 2%nat 4 3 0 0 true "blob:stream" (test_frame 4 3))
           [[1; 2; 3; 4]; [5; 6; 7; 8]; [9; 10; 11; 12]] Hs).
  - vm_compute. reflexivity.
  - vm_compute. discriminate.
  - vm_compute. discriminate.
  - vm_compute. reflexivity.
Defined.

(** X11: [resetViewfinder] on an instance whose video is gone, as after
    [stop()], throws a TypeError, but only after it has put the context in
    [source-over] mode and cleared the canvas: the viewfinder, the store and
    the notifications are as before, and no [change] is emitted. *)
Theorem reset_without_video_clears_then_throws
    (s : state) (ctx : Context2D) (cv : Canvas) :
  context (this s) = Some ctx ->
  canvas (this s) = Some cv ->
  video (this s) = None ->
  resetViewfinder s =
  (Throw (null_error "this.video"),
   with_this
     (set_context
        (Some (paints (clearRect (VNum 0) (VNum 0) (canvas_width cv) (canvas_height cv))
                 (set_globalCompositeOperation "source-over" ctx)))) s).
Proof.
  intros Hctx Hcv Hv.
  destruct s as [[vf sn cvs cx vd op el] hp p t]; simpl in *; subst.
  reflexivity.
Qed.

Lemma reset_without_video_clears_then_throws_witness :
  let s := exec (stop ∅) (tracker_state 8 6) in
  video (this s) = None /\
  outcome resetViewfinder s = Throw (null_error "this.video") /\
  currentRectangle (exec resetViewfinder s) = currentRectangle (tracker_state 8 6) /\
  emitted (exec resetViewfinder s) = emitted (tracker_state 8 6).
Proof.
  intros s. split; [reflexivity|].
  pose proof (reset_without_video_clears_then_throws s
                (mkContext2D "source-over" "#000000" "#000000" 1 [])
                (mkCanvas 3%nat (VNum 8) (VNum 6) "absolute" (VNum 0) (VNum 0) "crosshair"
                   mouse_listeners)
                eq_refl eq_refl eq_refl) as Hrun.
  unfold outcome, exec. rewrite Hrun. repeat split.
Defined.

(** ** Setting up the canvas *)

Lemma setupCanvas_run (touch : bool) (s : state) (v : Video) :
  video (this s) = Some v ->
  let n := fresh ({[body]} ∪ dom (page s)) in
  let l := fresh (dom (heap s)) in
  let h1 := <[l := full_frame v]> (heap s) in
  let b := fresh (dom h1) in
  let dynamic := dynamicViewfinder (options (this s)) in
  let cv := mkCanvas n (VNum (offsetWidth v)) (VNum (offsetHeight v)) "absolute"
                     (VNum (offsetTop v)) (VNum (offsetLeft v))
                     (if dynamic then "crosshair" else "")
                     (if dynamic
                      then mouse_listeners ++ (if touch then touch_listeners else [])
                      else []) in
  let p1 := <[n := mkDomNode "" []]> (page s) in
  setupCanvas touch s =
  (Normal (if dynamic then Some (mkClosure false b) else None),
   mkState
     (mkInstance l (snapshots (this s)) (Some cv)
        (Some (mkContext2D "source-over" "#000000" "#000000" 1 []))
        (Some v) (options (this s)) (element (this s)))
     (if dynamic then <[b := empty_rect]> h1 else h1)
     (<[element (this s) :=
          mkDomNode (style_position (node_of p1 (element (this s))))
                    (children (node_of p1 (element (this s))) ++ [n])]> p1)
     (emitted s ++ [mkNotification "start" NoData])).
Proof.
  intros Hv.
  destruct s as [[vf sn cvs cx vd [dyn] el] hp p t]; simpl in *; subst.
  destruct dyn, touch; reflexivity.
Qed.



(** X13: with the dynamic viewfinder disabled, which is the default,
    [setupCanvas] registers no listener at all and returns no session: the
    canvas it lays over the video has no handler and the default cursor, and
    the committed rectangle is the whole video. *)
Theorem setupCanvas_without_dynamic_viewfinder (touch : bool) (s : state) (v : Video) :
  video (this s) = Some v ->
  dynamicViewfinder (options (this s)) = false ->
  exists cv : Canvas,
    outcome (setupCanvas touch) s = Normal None /\
    canvas (this (exec (setupCanvas touch) s)) = Some cv /\
    listeners cv = [] /\
    canvas_cursor cv = "" /\
    canvas_width cv = VNum (offsetWidth v) /\
    canvas_height cv = VNum (offsetHeight v) /\
    currentRectangle (exec (setupCanvas touch) s) = full_frame v /\
    emitted (exec (setupCanvas touch) s) = emitted s ++ [mkNotification "start" NoData].
Proof.
  intros Hv Hdyn. unfold outcome, exec, currentRectangle.
  rewrite (setupCanvas_run touch s v Hv), Hdyn; simpl.
  eexists. do 6 (split; [reflexivity|]).
  split; [by rewrite deref_insert | done].
Qed.

Lemma setupCanvas_without_dynamic_viewfinder_witness :
  let s := mkState (mkInstance 0%nat [] None None
                      (Some (mkVideo 2%nat 8 6 0 0 true "blob:stream" (test_frame 8 6)))
                      (mkOptions false) container)
                   {[ 0%nat := empty_rect ]}
                   {[ body := mkDomNode "" [container];
                      container := mkDomNode "relative" [2%nat];
                      2%nat := mkDomNode "" [] ]}
                   [] in
  dynamicViewfinder (options (this s)) = false /\
  outcome (setupCanvas true) s = Normal None.
Proof.
  intros s. split; [reflexivity|].
  destruct (setupCanvas_without_dynamic_viewfinder true s
              (mkVideo 2%nat 8 6 0 0 true "blob:stream" (test_frame 8 6)) eq_refl eq_refl)
    as (cv & Hrun & _).
  exact Hrun.
Defined.

Lemma setupCanvas_without_video_run (touch : bool) (s : state) :
  video (this s) = None ->
  let n := fresh ({[body]} ∪ dom (page s)) in
  setupCanvas touch s =
  (Throw (null_error "this.video"),
   mkState
     (set_canvas (Some (mkCanvas n (VNum 300) (VNum 150) "" VUndef VUndef "" [])) (this s))
     (heap s)
     (<[n := mkDomNode "" []]> (page s))
     (emitted s)).
Proof.
  intros Hv.
  destruct s as [[vf sn cvs cx vd op el] hp p t]; simpl in *; subst.
  reflexivity.
Qed.

(** X14: [setupCanvas] on an instance without a video throws a TypeError when
    it reads the width of the video, after it has replaced [this.canvas] by a
    newly created canvas that is attached to nothing and listens to nothing.
    The context, the viewfinder, the store and every node that was in the
    page are as before, and [start] is not emitted. *)
Theorem setupCanvas_without_video (touch : bool) (s : state) :
  video (this s) = None ->
  exists cv : Canvas,
    outcome (setupCanvas touch) s = Throw (null_error "this.video") /\
    this (exec (setupCanvas touch) s) = set_canvas (Some cv) (this s) /\
    listeners cv = [] /\
    page s !! canvas_node cv = None /\
    (forall m : node, m <> canvas_node cv ->
       page (exec (setupCanvas touch) s) !! m = page s !! m) /\
    heap (exec (setupCanvas touch) s) = heap s /\
    emitted (exec (setupCanvas touch) s) = emitted s.
Proof.
  intros Hv. unfold outcome, exec. rewrite (setupCanvas_without_video_run touch s Hv).
  simpl. eexists. split; [reflexivity|]. split; [reflexivity|]. simpl.
  split; [reflexivity|]. split.
  - apply not_elem_of_dom.
    pose proof (is_fresh ({[body]} ∪ dom (page s) : gset nat)). set_solver.
  - split; [|done]. intros m Hm. by rewrite lookup_insert_ne.
Qed.

Lemma setupCanvas_without_video_witness :
  let s := exec (stop ∅) (tracker_state 8 6) in
  video (this s) = None /\
  outcome (setupCanvas false) s = Throw (null_error "this.video") /\
  emitted (exec (setupCanvas false) s) = emitted (tracker_state 8 6).
Proof.
  intros s. split; [reflexivity|].
  destruct (setupCanvas_without_video false s eq_refl) as (cv & Hrun & _ & _ & _ & _ & _ & He).
  split; [exact Hrun | exact He].
Defined.

(** ** The constructor, when the browser has [getUserMedia] *)

(** X15: when [navigator] has one of the three names, the constructor never
    throws the "not supported" error.  It throws a TypeError when the
    selector matches no element; otherwise it returns an instance on the
    first match, with an empty viewfinder, no snapshot, no canvas, context or
    video, and [dynamicViewfinder] as given, [false] by default.  On the page
    it sets the position of that element to [relative] and touches nothing
    else. *)
Theorem constructor_with_getUserMedia
    (navigator : Navigator) (document : Document) (selector : string) (opts : option bool) :
  userMediaFeatureExists navigator = true ->
  match querySelectorAll document selector with
  | [] => SayCheese navigator document selector opts = Throw (null_error "this.element")
  | el :: _ =>
      exists s : state,
        SayCheese navigator document selector opts = Normal s /\
        element (this s) = el /\
        currentRectangle s = empty_rect /\
        snapshots (this s) = [] /\
        canvas (this s) = None /\
        context (this s) = None /\
        video (this s) = None /\
        dynamicViewfinder (options (this s)) = default false opts /\
        emitted s = [] /\
        style_position (node_of (page s) el) = "relative" /\
        children (node_of (page s) el) = children (node_of (tree document) el) /\
        (forall n : node, n <> el -> page s !! n = tree document !! n)
  end.
Proof.
  intros Hnav. unfold SayCheese. rewrite Hnav.
  destruct (querySelectorAll document selector) as [|el els]; [done|].
  simpl. eexists. split; [reflexivity|]. simpl.
  unfold currentRectangle, node_of; simpl.
  rewrite lookup_insert_eq; simpl.
  repeat split; try done.
  - by destruct opts.
  - intros n Hn. by rewrite lookup_insert_ne.
Qed.

Lemma constructor_with_getUserMedia_witness :
  userMediaFeatureExists (mkNavigator false false true) = true /\
  SayCheese (mkNavigator false false true) demo_document "#nothing" None
  = Throw (null_error "this.element").
Proof.
  split; [reflexivity|].
  exact (constructor_with_getUserMedia (mkNavigator false false true) demo_document
           "#nothing" None eq_refl).
Defined.

(** ** The stream is granted *)

(** X16: the [success] callback of [start], on an instance whose container is
    in the page, creates a video element that is not yet in the page, with
    [autoplay] on and the URL of the stream as source, and appends it as the
    last child of the container.  It emits nothing, [start] in particular,
    and leaves the viewfinder, the snapshots, the canvas and the context as
    they were. *)
Theorem success_appends_the_video (url : string) (s : state) :
  is_Some (page s !! element (this s)) ->
  exists v : Video,
    outcome (Start.success url) s = Normal tt /\
    video (this (exec (Start.success url) s)) = Some v /\
    autoplay v = true /\
    src v = url /\
    page s !! video_node v = None /\
    video_node v <> body /\
    set_video None (this (exec (Start.success url) s)) = set_video None (this s) /\
    children (node_of (page (exec (Start.success url) s)) (element (this s)))
    = children (node_of (page s) (element (this s))) ++ [video_node v] /\
    style_position (node_of (page (exec (Start.success url) s)) (element (this s)))
    = style_position (node_of (page s) (element (this s))) /\
    (forall m : node, m <> video_node v -> m <> element (this s) ->
       page (exec (Start.success url) s) !! m = page s !! m) /\
    heap (exec (Start.success url) s) = heap s /\
    emitted (exec (Start.success url) s) = emitted s.
Proof.
  intros Hel. set (n := fresh ({[body]} ∪ dom (page s))).
  assert (Hfresh : n ∉ ({[body]} ∪ dom (page s) : gset nat)) by apply is_fresh.
  assert (Hn : page s !! n = None).
  { apply not_elem_of_dom. set_solver. }
  assert (Hbody : n <> body) by set_solver.
  assert (Hne : n <> element (this s)).
  { intros Heq. rewrite <- Heq, Hn in Hel. by destruct Hel. }
  destruct s as [[vf sn cvs cx vd op el] hp p t]; simpl in *.
  unfold outcome, exec, Start.success, createVideo, video_set, get_video, createElement,
    appendChild, node_of. unfold_stmt. cbn. fold n.
  rewrite lookup_insert_eq; cbn.
  rewrite lookup_insert_ne by done.
  eexists. split; [reflexivity|]. split; [reflexivity|]. simpl.
  repeat split; try done.
  intros m Hm1 Hm2. by rewrite !lookup_insert_ne.
Qed.

Lemma success_appends_the_video_witness :
  let s := mkState (mkInstance 0%nat [] None None None (mkOptions false) container)
                   {[ 0%nat := empty_rect ]}
                   {[ body := mkDomNode "" [container];
                      container := mkDomNode "relative" [] ]}
                   [] in
  SayCheese demo_navigator demo_document "#cam" None = Normal s /\
  is_Some (page s !! element (this s)) /\
  children (node_of (page (exec (Start.success "blob:stream") s)) container) = [2%nat].
Proof.
  intros s. split; [vm_compute; reflexivity|].
  assert (Hel : is_Some (page s !! element (this s))) by (eexists; vm_compute; reflexivity).
  split; [exact Hel|].
  destruct (success_appends_the_video "blob:stream" s Hel)
    as (v & _ & Hv & _ & _ & _ & _ & _ & H & _).
  etransitivity; [exact H|].
  assert (Hn : video_node v = 2%nat).
  { revert Hv. vm_compute. by intros [= <-]. }
  rewrite Hn. vm_compute. reflexivity.
Defined.

(** ** The URL of the stream *)

(** X17: [getStreamUrl] looks for [createObjectURL] on [window.URL] when the
    browser has it, and only otherwise on [window.webkitURL].  A [window.URL]
    without [createObjectURL] therefore makes it return the stream itself,
    even when [window.webkitURL] could have made an object URL. *)
Theorem URL_without_createObjectURL_hides_webkitURL
    (window : Window) (stream : string) (globals : gmap string gval) (u : URLApi) :
  URL window = Some u ->
  createObjectURL u = None ->
  (getStreamUrl window stream globals).1 = stream.
Proof. intros Hu Hc. unfold getStreamUrl; simpl. by rewrite Hu, Hc. Qed.

Lemma URL_without_createObjectURL_hides_webkitURL_witness :
  URL (mkWindow (Some (mkURLApi None))
                (Some (mkURLApi (Some (String.append "blob:"))))) = Some (mkURLApi None) /\
  createObjectURL (mkURLApi None) = None /\
  (getStreamUrl (mkWindow (Some (mkURLApi None))
                          (Some (mkURLApi (Some (String.append "blob:")))))
                "stream-1" ∅).1 = "stream-1" /\
  (getStreamUrl (mkWindow None (Some (mkURLApi (Some (String.append "blob:")))))
                "stream-1" ∅).1 = "blob:stream-1".
Proof.
  split; [reflexivity|]. split; [reflexivity|]. split; [|reflexivity].
  exact (URL_without_createObjectURL_hides_webkitURL
           (mkWindow (Some (mkURLApi None)) (Some (mkURLApi (Some (String.append "blob:")))))
           "stream-1" ∅ (mkURLApi None) eq_refl eq_refl).
Defined.

(** No scope of the library binds the identifier [url] that [getStreamUrl]
    assigns. *)
Lemma url_is_free : "url" ∉ ["getStreamUrl"; "stream"; "arguments"] ++ module_scope.
Proof. apply (bool_decide_unpack _). by vm_compute. Qed.

Lemma stop_unresolved (globals : gmap string gval) (s : state) :
  globals !! "video" = None ->
  stop globals s = (Throw (ReferenceError "video"), with_this (set_video None) s).
Proof.
  intros Hg. unfold stop, resolve.
  rewrite bool_decide_eq_false_2 by exact video_is_free.
  unfold_stmt. by rewrite Hg.
Qed.

(** X18: [getStreamUrl] assigns [url] without declaring it, so each call
    defines or overwrites the global [url] of the page; it changes no other
    global.  In particular it does not define [video]: on a page without
    that global, [stop()] throws its ReferenceError after [getStreamUrl] as
    before. *)
Theorem getStreamUrl_leaks_the_global_url
    (window : Window) (stream : string) (globals : gmap string gval) (s : state) :
  globals !! "video" = None ->
  (getStreamUrl window stream globals).2 !! "url" = Some GOther /\
  (forall ident : string, ident <> "url" ->
     (getStreamUrl window stream globals).2 !! ident = globals !! ident) /\
  stop (getStreamUrl window stream globals).2 s
  = (Throw (ReferenceError "video"), with_this (set_video None) s).
Proof.
  intros Hg. unfold getStreamUrl, assign_free.
  rewrite bool_decide_eq_false_2 by exact url_is_free. simpl.
  split; [by rewrite lookup_insert_eq|]. split.
  - intros ident Hi. by rewrite lookup_insert_ne.
  - apply stop_unresolved. by rewrite lookup_insert_ne.
Qed.

Lemma getStreamUrl_leaks_the_global_url_witness :
  ({[ "url" := GNode container ]} : gmap string gval) !! "video" = None /\
  (getStreamUrl (mkWindow None None) "stream-1" {[ "url" := GNode container ]}).2 !! "url"
  = Some GOther.
Proof.
  split; [reflexivity|].
  exact (proj1 (getStreamUrl_leaks_the_global_url (mkWindow None None) "stream-1"
                  {[ "url" := GNode container ]} (tracker_state 8 6) eq_refl)).
Defined.

(** ** Stopping *)

Lemma stop_frame (globals : gmap string gval) (s : state) :
  this (exec (stop globals) s) = set_video None (this s) /\
  heap (exec (stop globals) s) = heap s /\
  emitted (exec (stop globals) s) = emitted s /\
  (forall n : node, n <> body -> page (exec (stop globals) s) !! n = page s !! n).
Proof.
  unfold exec, stop, resolve.
  rewrite bool_decide_eq_false_2 by exact video_is_free.
  unfold_stmt. simpl.
  destruct (globals !! "video") as [[n|]|]; simpl; try done.
  unfold removeChild. unfold_stmt. simpl.
  case_bool_decide; simpl; [|done].
  repeat split; try done.
  intros m Hm. unfold with_page; simpl. by rewrite lookup_insert_ne.
Qed.

(** X19: whatever the page defines as [video], and whether [stop()] throws or
    returns, it sets [this.video] to [null] and changes nothing else of the
    instance, no rectangle and no notification; on the page only the children
    of [body] can change. *)
Theorem stop_changes_the_video_field_and_body_only
    (globals : gmap string gval) (s : state) :
  this (exec (stop globals) s) = set_video None (this s) /\
  heap (exec (stop globals) s) = heap s /\
  emitted (exec (stop globals) s) = emitted s /\
  (forall n : node, n <> body -> page (exec (stop globals) s) !! n = page s !! n).
Proof. apply stop_frame. Qed.

(** X20: on a page whose global [video] is a node directly under [body],
    [stop()] does not throw: it removes that node from [body], keeping the
    other children in their order, whether or not it is the video element of
    the instance, which it never looks at. *)
Theorem stop_removes_a_global_video_under_body
    (globals : gmap string gval) (s : state) (n : node) :
  globals !! "video" = Some (GNode n) ->
  n ∈ children (node_of (page s) body) ->
  outcome (stop globals) s = Normal tt /\
  children (node_of (page (exec (stop globals) s)) body)
  = filter (fun m => m <> n) (children (node_of (page s) body)) /\
  video (this (exec (stop globals) s)) = None.
Proof.
  intros Hg Hn. unfold outcome, exec, stop, resolve.
  rewrite bool_decide_eq_false_2 by exact video_is_free.
  unfold_stmt. simpl. rewrite Hg; simpl.
  unfold removeChild. unfold_stmt. simpl.
  rewrite bool_decide_eq_true_2 by done. simpl.
  unfold node_of at 1. unfold with_page; simpl. by rewrite lookup_insert_eq.
Qed.

Lemma stop_removes_a_global_video_under_body_witness :
  let s := mkState (mkInstance 0%nat [] None None
                      (Some (mkVideo 2%nat 8 6 0 0 true "blob:stream" []))
                      (mkOptions false) container)
                   {[ 0%nat := empty_rect ]}
                   {[ body := mkDomNode "" [container; 7%nat];
                      container := mkDomNode "relative" [2%nat];
                      2%nat := mkDomNode "" [];
                      7%nat := mkDomNode "" [] ]}
                   [] in
  ({[ "video" := GNode 7%nat ]} : gmap string gval) !! "video" = Some (GNode 7%nat) /\
  (7%nat ∈ children (node_of (page s) body)) /\
  outcome (stop {[ "video" := GNode 7%nat ]}) s = Normal tt /\
  children (node_of (page (exec (stop {[ "video" := GNode 7%nat ]}) s)) body) = [container] /\
  children (node_of (page (exec (stop {[ "video" := GNode 7%nat ]}) s)) container) = [2%nat].
Proof.
  intros s.
  assert (Hg : ({[ "video" := GNode 7%nat ]} : gmap string gval) !! "video"
               = Some (GNode 7%nat)) by reflexivity.
  split; [exact Hg|].
  assert (Hin : 7%nat ∈ children (node_of (page s) body)).
  { apply (bool_decide_unpack _). by vm_compute. }
  split; [exact Hin|].
  destruct (stop_removes_a_global_video_under_body {[ "video" := GNode 7%nat ]} s 7%nat
              Hg Hin) as (Hrun & Hbody & _).
  split; [exact Hrun|]. split.
  - etransitivity; [exact Hbody|]. vm_compute. reflexivity.
  - vm_compute. reflexivity.
Defined.

(** ** Sessions *)

Lemma announced_app (t1 t2 : list notification) :
  announced (t1 ++ t2) = announced t1 ++ announced t2.
Proof. apply omap_app. Qed.

(** What a pointer move keeps, also when the canvas was never set up and the
    handler throws. *)
Lemma draw_frame (evt : Event) (c : closure) (s : state) :
  set_context None (this (exec (DynamicViewfinder.draw evt c) s)) = set_context None (this s) /\
  (is_Some (context (this s)) -> is_Some (context (this (exec (DynamicViewfinder.draw evt c) s)))) /\
  emitted (exec (DynamicViewfinder.draw evt c) s) = emitted s /\
  match outcome (DynamicViewfinder.draw evt c) s with
  | Normal c' => c' = c
  | Throw _ => True
  end.
Proof.
  destruct s as [[vf sn cvs cx vd op el] hp p t].
  unfold outcome, exec, DynamicViewfinder.draw. unfold_stmt.
  destruct (isDragging c); [|by cbn].
  destruct cx as [ctx|]; [|cbn; repeat split; try done; by intros []].
  destruct cvs as [cv|]; cbn; repeat split; eauto.
Qed.

Lemma resetViewfinder_frame (s : state) :
  set_viewfinder 0%nat (set_context None (this (exec resetViewfinder s)))
  = set_viewfinder 0%nat (set_context None (this s)) /\
  (is_Some (context (this s)) -> is_Some (context (this (exec resetViewfinder s)))) /\
  announced (emitted (exec resetViewfinder s)) = announced (emitted s).
Proof.
  destruct s as [[vf sn cvs cx vd op el] hp p t].
  unfold exec, resetViewfinder, alloc, get_video. unfold_stmt.
  destruct cx as [ctx|]; [|cbn; repeat split; try done; by intros []].
  destruct cvs as [cv|]; [|cbn; repeat split; eauto].
  destruct vd as [v|]; cbn; repeat split; eauto.
  rewrite announced_app. simpl. by rewrite app_nil_r.
Qed.

(** One action of a session: what it keeps and how the snapshots and their
    announcements grow. *)
Lemma after_invariants `{CanvasAPI} (a : action) (c : closure) (s : state) :
  box (after a (c, s)).1 = box c /\
  options (this (after a (c, s)).2) = options (this s) /\
  element (this (after a (c, s)).2) = element (this s) /\
  canvas (this (after a (c, s)).2) = canvas (this s) /\
  (is_Some (context (this s)) -> is_Some (context (this (after a (c, s)).2))) /\
  video (this (after a (c, s)).2)
  = match a with
    | Stop _ => None
    | _ => video (this s)
    end /\
  exists new : list Snapshot,
    snapshots (this (after a (c, s)).2) = snapshots (this s) ++ new /\
    announced (emitted (after a (c, s)).2) = announced (emitted s) ++ new.
Proof.
  destruct a as [[evt|evt|evt]| | |globals]; unfold after, perform, dispatch; cbn [fst snd].
  - rewrite start_run; simpl. repeat split; try done. exists []. by rewrite !app_nil_r.
  - pose proof (draw_frame evt c s) as (Hi & Hctx & He & Hc).
    unfold outcome, exec in *.
    destruct (DynamicViewfinder.draw evt c s) as [[c'|e] s']; simpl in *; subst;
      (split; [done|]);
      (split; [by apply (f_equal options) in Hi|]);
      (split; [by apply (f_equal element) in Hi|]);
      (split; [by apply (f_equal canvas) in Hi|]);
      (split; [done|]);
      (split; [by apply (f_equal video) in Hi|]);
      exists []; rewrite !app_nil_r, He;
      (split; [by apply (f_equal snapshots) in Hi | done]).
  - rewrite stop_run; simpl. repeat split; try done. exists [].
    rewrite announced_app. simpl. by rewrite !app_nil_r.
  - pose proof (resetViewfinder_frame s) as (Hi & Hctx & He).
    unfold bind, ret, exec in *.
    destruct (resetViewfinder s) as [[[]|e] s']; simpl in *;
      (split; [done|]);
      (split; [by apply (f_equal options) in Hi|]);
      (split; [by apply (f_equal element) in Hi|]);
      (split; [by apply (f_equal canvas) in Hi|]);
      (split; [done|]);
      (split; [by apply (f_equal video) in Hi|]);
      exists []; rewrite !app_nil_r, He;
      (split; [by apply (f_equal snapshots) in Hi | done]).
  - unfold bind, ret. rewrite takeSnapshot_run.
    destruct (drawImage _ _ _ _ _ _ _ _ _ _ _) as [bitmap|e]; simpl.
    + repeat split; try done. eexists [_]. split; [reflexivity|].
      by rewrite announced_app.
    + repeat split; try done. exists []. by rewrite !app_nil_r.
  - pose proof (stop_frame globals s) as (Hi & _ & He & _).
    unfold bind, ret, exec in *.
    destruct (stop globals s) as [[[]|e] s']; simpl in *; rewrite Hi, He;
      repeat split; try done; exists []; by rewrite !app_nil_r.
Qed.

(** X21: over any session of pointer events and calls of [resetViewfinder],
    [takeSnapshot] and [stop], in any order and whether or not some of them
    throw, the snapshot collection only grows at its end, and the snapshots
    added are exactly those that the [snapshot] notifications emitted
    meanwhile carry, in the same order. *)
Theorem snapshots_grow_as_they_are_announced `{CanvasAPI}
    (acts : list action) (c : closure) (s : state) :
  exists new : list Snapshot,
    snapshots (this (session acts (c, s)).2) = snapshots (this s) ++ new /\
    announced (emitted (session acts (c, s)).2) = announced (emitted s) ++ new.
Proof.
  revert c s. induction acts as [|a acts IH]; intros c s.
  - exists []. by rewrite !app_nil_r.
  - simpl. destruct (after_invariants a c s) as (_ & _ & _ & _ & _ & _ & new1 & Hs1 & He1).
    destruct (after a (c, s)) as [c1 s1]; simpl in *.
    destruct (IH c1 s1) as (new2 & Hs2 & He2).
    exists (new1 ++ new2). rewrite Hs2, He2, Hs1, He1. by rewrite !app_assoc.
Qed.

(** X22: over any such session the instance keeps what [setupCanvas] and the
    constructor gave it: the options, the container, the canvas with its
    size and listeners, and the session box are the same; a context that was
    there is still there; the video is the same until [stop] is called and
    [null] from then on. *)
Theorem session_keeps_the_setup `{CanvasAPI}
    (acts : list action) (c : closure) (s : state) :
  box (session acts (c, s)).1 = box c /\
  options (this (session acts (c, s)).2) = options (this s) /\
  element (this (session acts (c, s)).2) = element (this s) /\
  canvas (this (session acts (c, s)).2) = canvas (this s) /\
  (surface s -> surface (session acts (c, s)).2) /\
  video (this (session acts (c, s)).2)
  = (if stopped acts then None else video (this s)).
Proof.
  revert c s. induction acts as [|a acts IH]; intros c s; [done|].
  simpl. destruct (after_invariants a c s) as (Hb & Ho & He & Hc & Hx & Hv & _).
  destruct (after a (c, s)) as [c1 s1]; simpl in *.
  destruct (IH c1 s1) as (Hb' & Ho' & He' & Hc' & Hx' & Hv').
  rewrite Hb', Ho', He', Hc', Hv', Hb, Ho, He, Hc, Hv.
  do 4 (split; [done|]). split.
  - intros [Hctx Hcv]. apply Hx'. split; [by apply Hx | by rewrite Hc].
  - destruct a; simpl; try done. by destruct (stopped acts).
Qed.

Lemma snapshots_grow_as_they_are_announced_witness :
  let acts := [Pointer (Down (pointer_at 1 1)); Pointer (Move (pointer_at 3 2));
               Pointer (Up (pointer_at 3 2)); TakeSnapshot; ResetViewfinder; TakeSnapshot;
               Stop ∅; TakeSnapshot] in
  let s' := (@session clipping_canvas acts (tracker_closure, tracker_state 4 3)).2 in
  snapshots (this s')
  = [mkSnapshot (VNum 2) (VNum 1) [[6; 7]];
     mkSnapshot (VNum 4) (VNum 3) [[1; 2; 3; 4]; [5; 6; 7; 8]; [9; 10; 11; 12]]] /\
  announced (emitted s') = snapshots (this s').
Proof.
  intros acts s'.
  destruct (@snapshots_grow_as_they_are_announced clipping_canvas acts
              tracker_closure (tracker_state 4 3)) as (new & Hs & He).
  fold s' in Hs, He. split; [vm_compute; reflexivity|].
  rewrite He, Hs. reflexivity.
Defined.

Lemma session_keeps_the_setup_witness :
  let acts := [Pointer (Down (pointer_at 1 1)); ResetViewfinder; Stop ∅; TakeSnapshot;
               Pointer (Move (pointer_at 3 2)); ResetViewfinder] in
  surface (tracker_state 4 3) /\
  surface (@session clipping_canvas acts (tracker_closure, tracker_state 4 3)).2 /\
  video (this (@session clipping_canvas acts (tracker_closure, tracker_state 4 3)).2) = None.
Proof.
  intros acts.
  assert (Hs : surface (tracker_state 4 3)) by (split; eexists; reflexivity).
  split; [exact Hs|].
  destruct (@session_keeps_the_setup clipping_canvas acts tracker_closure (tracker_state 4 3))
    as (_ & _ & _ & _ & Hsurf & Hv).
  split; [exact (Hsurf Hs) | exact Hv].
Defined.

Lemma stop_changes_the_video_field_and_body_only_witness :
  container <> body /\
  page (exec (stop {[ "video" := GNode container ]}) (tracker_state 8 6)) !! container
  = page (tracker_state 8 6) !! container.
Proof.
  split; [discriminate|].
  apply (stop_changes_the_video_field_and_body_only {[ "video" := GNode container ]}
           (tracker_state 8 6)).
  discriminate.
Defined.

(** ** Enabling the dynamic viewfinder *)

(** X23: [initDynamicViewfinder] on an instance that has a canvas adds the
    three mouse listeners, and the three touch listeners when the browser has
    touch events, after the listeners the canvas already has, and sets the
    crosshair cursor.  The session it returns is idle and its box is a new
    empty object, so a second call gives the canvas a second set of handlers
    with a box of its own.  The viewfinder, the rectangles that existed and
    the notifications are untouched. *)
Theorem initDynamicViewfinder_adds_a_session (touch : bool) (s : state) (cv : Canvas) :
  canvas (this s) = Some cv ->
  exists c : closure,
    outcome (initDynamicViewfinder touch) s = Normal c /\
    isDragging c = false /\
    heap s !! box c = None /\
    heap (exec (initDynamicViewfinder touch) s) = <[box c := empty_rect]> (heap s) /\
    this (exec (initDynamicViewfinder touch) s)
    = set_canvas
        (Some (set_canvas_cursor "crosshair"
                 (mkCanvas (canvas_node cv) (canvas_width cv) (canvas_height cv)
                    (canvas_position cv) (canvas_top cv) (canvas_left cv) (canvas_cursor cv)
                    (listeners cv ++ mouse_listeners
                       ++ (if touch then touch_listeners else [])))))
        (this s) /\
    emitted (exec (initDynamicViewfinder touch) s) = emitted s /\
    page (exec (initDynamicViewfinder touch) s) = page s.
Proof.
  intros Hcv. exists (mkClosure false (fresh (dom (heap s)))).
  assert (Hrun : initDynamicViewfinder touch s =
    (Normal (mkClosure false (fresh (dom (heap s)))),
     mkState
       (set_canvas
          (Some (set_canvas_cursor "crosshair"
                   (mkCanvas (canvas_node cv) (canvas_width cv) (canvas_height cv)
                      (canvas_position cv) (canvas_top cv) (canvas_left cv) (canvas_cursor cv)
                      (let mouse := ((listeners cv ++ [("mousedown", "start")])
                                       ++ [("mouseup", "stop")])
                                      ++ [("mousemove", "draw")] in
                       if touch
                       then ((mouse ++ [("touchstart", "start")])
                               ++ [("touchend", "stop")])
                              ++ [("touchmove", "draw")]
                       else mouse))))
          (this s))
       (<[fresh (dom (heap s)) := empty_rect]> (heap s))
       (page s) (emitted s))).
  { destruct s as [[vf sn cvs cx vd op el] hp p t].
    change (cvs = Some cv) in Hcv. subst cvs.
    destruct touch; reflexivity. }
  unfold outcome, exec. rewrite Hrun.
  split; [reflexivity|]. split; [reflexivity|].
  split; [apply not_elem_of_dom, is_fresh|].
  split; [reflexivity|]. split; [|done].
  unfold mouse_listeners, touch_listeners.
  destruct touch; cbv zeta; rewrite <- ?app_assoc, ?app_nil_r; reflexivity.
Qed.

Lemma initDynamicViewfinder_adds_a_session_witness :
  let s1 := exec (initDynamicViewfinder true) (tracker_state 8 6) in
  canvas (this (tracker_state 8 6))
  = Some (mkCanvas 3%nat (VNum 8) (VNum 6) "absolute" (VNum 0) (VNum 0) "crosshair"
            mouse_listeners) /\
  (listeners <$> canvas (this s1))
  = Some (mouse_listeners ++ mouse_listeners ++ touch_listeners).
Proof.
  intros s1. split; [reflexivity|].
  destruct (initDynamicViewfinder_adds_a_session true (tracker_state 8 6)
              (mkCanvas 3%nat (VNum 8) (VNum 6) "absolute" (VNum 0) (VNum 0) "crosshair"
                 mouse_listeners) eq_refl) as (c & _ & _ & _ & _ & Hthis & _).
  subst s1. rewrite Hthis. reflexivity.
Defined.

(** X24: [initDynamicViewfinder] on an instance that has no canvas yet, as
    before [setupCanvas], throws a TypeError at the first [addEventListener]:
    no listener is registered and the instance, the page and the
    notifications are as before. *)
Theorem initDynamicViewfinder_without_canvas (touch : bool) (s : state) :
  canvas (this s) = None ->
  outcome (initDynamicViewfinder touch) s = Throw (null_error "this.canvas") /\
  this (exec (initDynamicViewfinder touch) s) = this s /\
  currentRectangle (exec (initDynamicViewfinder touch) s) = currentRectangle s /\
  page (exec (initDynamicViewfinder touch) s) = page s /\
  emitted (exec (initDynamicViewfinder touch) s) = emitted s.
Proof.
  intros Hcv.
  assert (Hrun : initDynamicViewfinder touch s =
    (Throw (null_error "this.canvas"),
     with_heap <[fresh (dom (heap s)) := empty_rect]> s)).
  { destruct s as [[vf sn cvs cx vd op el] hp p t].
    change (cvs = None) in Hcv. subst cvs. reflexivity. }
  unfold outcome, exec, currentRectangle. rewrite Hrun.
  do 2 (split; [reflexivity|]). split; [|split; reflexivity].
  unfold with_heap, deref; cbn [heap this viewfinder snd]. destruct (decide (viewfinder (this s) = fresh (dom (heap s)))) as [Heq|Hne].
  - rewrite Heq, lookup_insert_eq.
    by rewrite (proj1 (not_elem_of_dom (heap s) (fresh (dom (heap s)))) (is_fresh _)).
  - by rewrite lookup_insert_ne.
Qed.

Lemma initDynamicViewfinder_without_canvas_witness :
  let s := mkState (mkInstance 0%nat [] None None None (mkOptions true) container)
                   {[ 0%nat := empty_rect ]}
                   {[ body := mkDomNode "" [container];
                      container := mkDomNode "relative" [] ]}
                   [] in
  SayCheese demo_navigator demo_document "#cam" (Some true) = Normal s /\
  canvas (this s) = None /\
  outcome (initDynamicViewfinder false) s = Throw (null_error "this.canvas").
Proof.
  intros s. split; [vm_compute; reflexivity|]. split; [reflexivity|].
  exact (proj1 (initDynamicViewfinder_without_canvas false s eq_refl)).
Defined.
